(** * cmc: frame codec and request handlers of the attestation daemon

    A shallow embedding of
    - the length-prefixed [Write]/[Read] pair of package [attestedtls],
    - the unix-socket request handlers of [cmcd/socket.go],
    - the gRPC request handlers of [cmcd/api.go].

    Connections, loggers and the collaborators the handlers call
    (serializers, report engine, signer) are explicit values; a handler is
    a function that threads the list of effects it performs. *)

From Stdlib Require Import String ZArith List Lia Bool.
From coqutil Require Import Byte.
Import ListNotations.
Local Open Scope string_scope.
Local Open Scope list_scope.
Local Open Scope Z_scope.

(** Go's [[]byte]. *)
Definition bytes := list byte.

(** * Package attestedtls: [Write] and [Read] *)

Module Frame.

(** ** Fixed-width integers *)

(** The conversion [uint32(x)]: values wrap modulo 2^32. *)
Definition uint32 (z : Z) : Z := z mod 2 ^ 32.

(** [binary.BigEndian.PutUint32(b, v)] on a 4-byte buffer:
    [b[0] = byte(v >> 24)], ..., [b[3] = byte(v)]. *)
Definition PutUint32 (v : Z) : bytes :=
  [ byte.of_Z (Z.shiftr v 24); byte.of_Z (Z.shiftr v 16);
    byte.of_Z (Z.shiftr v 8); byte.of_Z v ].

(** [binary.BigEndian.Uint32(b)]:
    [uint32(b[3]) | uint32(b[2])<<8 | uint32(b[1])<<16 | uint32(b[0])<<24].
    The buffers of this file always hold four bytes; shorter slices make
    the Go function panic and are mapped to 0 here. *)
Definition Uint32 (b : bytes) : Z :=
  match b with
  | b0 :: b1 :: b2 :: b3 :: _ =>
      Z.lor (Z.lor (Z.lor (byte.unsigned b3)
                          (Z.shiftl (byte.unsigned b2) 8))
                   (Z.shiftl (byte.unsigned b1) 16))
            (Z.shiftl (byte.unsigned b0) 24)
  | _ => 0
  end.

(** ** The connection

    A [net.Conn] seen from one end.  [pending] holds the data that will
    arrive, cut into the segments in which the transport hands it over:
    one call of [c.Read(buf)] returns at most [len(buf)] bytes and never
    more than what is left of the first segment, so a segment shorter than
    the buffer gives a short read.  After the last segment, [c.Read]
    fails with the error [at_end] (for instance io.EOF), or blocks for
    ever when the peer keeps the connection open and silent. *)
Record Conn := mkConn {
  pending : list bytes;
  at_end : option string;
  reads : list nat;        (* len(buf) of every c.Read made so far *)
  sent : list bytes;       (* buffer of every successful c.Write so far *)
  write_err : option string  (* the error c.Write returns, if any *)
}.

(** The outcome of one [c.Read(buf)]: the bytes copied into [buf[:n]] and
    the error, or no return at all. *)
Inductive ReadStep :=
| Got (data : bytes) (err : option string)
| Blocks.

Definition log_read (c : Conn) (n : nat) (p : list bytes) : Conn :=
  mkConn p (at_end c) (reads c ++ [n]) (sent c) (write_err c).

(** What a read into a buffer of [n] bytes leaves pending when [seg] is
    the first segment: the part of [seg] that did not fit, if any. *)
Definition after_read (n : nat) (seg : bytes) (rest : list bytes) : list bytes :=
  if (n <? length seg)%nat then skipn n seg :: rest else rest.

(** [c.Read(buf)] with [len(buf) = n]. *)
Definition conn_Read (c : Conn) (n : nat) : ReadStep * Conn :=
  match pending c with
  | seg :: rest =>
      (Got (firstn n seg) None, log_read c n (after_read n seg rest))
  | [] =>
      match at_end c with
      | Some e => (Got [] (Some e), log_read c n [])
      | None => (Blocks, log_read c n [])
      end
  end.

(** [c.Write(buf)]. *)
Definition conn_Write (c : Conn) (buf : bytes) : option string * Conn :=
  match write_err c with
  | Some e => (Some e, c)
  | None => (None, mkConn (pending c) (at_end c) (reads c) (sent c ++ [buf]) None)
  end.

(** All bytes still to arrive on [c], in order. *)
Definition stream (c : Conn) : bytes := concat (pending c).

(** The number of bytes [c] has handed to its reader between [c0] and [c]. *)
Definition consumed (c0 c : Conn) : Z :=
  Z.of_nat (length (stream c0)) - Z.of_nat (length (stream c)).

(** ** Connections that report an error with the last bytes

    A [c.Read] may return bytes and a non-nil error from one call
    instead of reporting the error from a call of its own.  A [Link] is a
    connection that does so when [err_with_data] is set: the read that
    takes the last pending bytes also returns the error that ends the
    stream. *)
Record Link := mkLink {
  wire : Conn;
  err_with_data : bool
}.

(** The bytes and the error that a read into [n] bytes returns together,
    if it does. *)
Definition closes_with (l : Link) (n : nat) : option (bytes * string) :=
  match pending (wire l), at_end (wire l) with
  | [seg], Some e =>
      if err_with_data l && (length seg <=? n)%nat then Some (seg, e) else None
  | _, _ => None
  end.

(** [c.Read(buf)] with [len(buf) = n] on a [Link]. *)
Definition link_Read (l : Link) (n : nat) : ReadStep * Link :=
  match closes_with l n with
  | Some (seg, e) =>
      (Got seg (Some e), mkLink (log_read (wire l) n []) (err_with_data l))
  | None =>
      (fst (conn_Read (wire l) n),
       mkLink (snd (conn_Read (wire l) n)) (err_with_data l))
  end.

(** [c.Write(buf)] on a [Link]. *)
Definition link_Write (l : Link) (buf : bytes) : option string * Link :=
  (fst (conn_Write (wire l) buf),
   mkLink (snd (conn_Write (wire l) buf)) (err_with_data l)).

(** No read of [l] returns bytes together with an error: [l] reports
    errors by reads of their own, or it stays open. *)
Definition no_error_with_data (l : Link) : Prop :=
  err_with_data l = true -> at_end (wire l) = None.

(** ** The interface

    [net.Conn] is an interface; [Write] and [Read] use its methods
    [Write] and [Read].  [arriving] is what is still to arrive on the
    connection; the model takes from it the number of iterations it
    grants the loop of [Read]. *)
Class NetConn (C : Type) := {
  c_Read : C -> nat -> ReadStep * C;
  c_Write : C -> bytes -> option string * C;
  arriving : C -> list bytes
}.

#[global] Instance plain : NetConn Conn :=
  {| c_Read := conn_Read; c_Write := conn_Write; arriving := pending |}.

#[global] Instance link : NetConn Link :=
  {| c_Read := link_Read; c_Write := link_Write;
     arriving := fun l => pending (wire l) |}.

(** ** Write *)

(** [func Write(msg []byte, c net.Conn) error] *)
Definition Write {C : Type} `{NetConn C} (msg : bytes) (c : C) : option string * C :=
  let lenbuf := PutUint32 (uint32 (Z.of_nat (length msg))) in
  let buf := lenbuf ++ msg in
  c_Write c buf.

(** ** Read *)

(** What a call of [Read] comes to: the two return values, or no return. *)
Inductive Result :=
| Ok (buf : bytes)
| Err (msg : string)
| Hang
| OutOfFuel.

(** [copy(buf, data)] into a buffer at least as long as [data]. *)
Definition fill (buf data : bytes) : bytes :=
  data ++ skipn (length data) buf.

(** [len(tmpbuf)], from [tmpbuf := make([]byte, 1024)]. *)
Definition chunk : nat := 1024.

(** The [for] loop of [Read], one iteration per unit of fuel. *)
Fixpoint read_loop {C : Type} `{NetConn C}
         (fuel : nat) (len : Z) (buf : bytes) (rcvlen : Z) (c : C) : Result * C :=
  match fuel with
  | O => (OutOfFuel, c)
  | S fuel' =>
      match c_Read c chunk with
      | (Blocks, c') => (Hang, c')
      | (Got data err, c') =>
          let rcvlen := uint32 (rcvlen + Z.of_nat (length data)) in
          match err with
          | Some e => (Err ("failed to receive message: " ++ e)%string, c')
          | None =>
              let buf := buf ++ data in
              if rcvlen =? len then (Ok buf, c')
              else read_loop fuel' len buf rcvlen c'
          end
      end
  end.

(** Every iteration that does not leave the loop removes a segment or a
    non-empty part of one, so this many iterations are never used up. *)
Definition weight (p : list bytes) : nat :=
  fold_right (fun seg n => S (length seg + n)%nat) O p.

(** [func Read(c net.Conn) ([]byte, error)] *)
Definition Read {C : Type} `{NetConn C} (c : C) : Result * C :=
  match c_Read c 4 with
  | (Blocks, c1) => (Hang, c1)
  | (Got _ (Some e), c1) =>
      (Err ("failed to receive message: no length: " ++ e)%string, c1)
  | (Got data None, c1) =>
      let lenbuf := fill (repeat Byte.x00 4) data in
      let len := Uint32 lenbuf in
      if len =? 0 then (Err "message length is zero", c1)
      else read_loop (S (weight (arriving c1))) len [] (uint32 0) c1
  end.

(** The reading end of a connection whose writing end is [w]: every
    buffer written arrives as one segment. *)
Definition deliver (w : Conn) (tail : option string) : Conn :=
  mkConn (sent w) tail [] [] None.

(** The length the first four bytes of the stream announce, when the
    stream has four bytes. *)
Definition length_prefix (c : Conn) : option Z :=
  match stream c with
  | b0 :: b1 :: b2 :: b3 :: _ => Some (Uint32 [b0; b1; b2; b3])
  | _ => None
  end.

(** A connection nothing has been done with yet. *)
Definition fresh : Conn := mkConn [] None [] [] None.

(** The round trip of one message [b]: it is written on a fresh
    connection and read at the other end. *)
Definition roundtrip (b : bytes) (tail : option string) : Result :=
  fst (Read (deliver (snd (Write b fresh)) tail)).

(** A message one byte longer than the buffer of the loop. *)
Definition sample_1025 : bytes := repeat Byte.x41 1025.


(** The frame of the message "hello" arriving in two segments, the cut
    inside the payload. *)
Definition split_payload : Conn :=
  mkConn [[Byte.x00; Byte.x00; Byte.x00; Byte.x05; Byte.x68; Byte.x65];
          [Byte.x6c; Byte.x6c; Byte.x6f]] None [] [] None.

(** A message of exactly 2^32 bytes. *)
Definition four_GiB : bytes := repeat Byte.x00 (Z.to_nat (2 ^ 32)).

(** The frame of the one-byte message "A" arriving in two segments, the
    first of which ends inside the length prefix. *)
Definition split_prefix : Conn :=
  mkConn [[Byte.x00; Byte.x00]; [Byte.x00; Byte.x01; Byte.x41]]
         (Some "EOF") [] [] None.

(** Two frames, of the messages "A" and "B", arriving in one segment. *)
Definition two_frames : Conn :=
  mkConn [[Byte.x00; Byte.x00; Byte.x00; Byte.x01; Byte.x41;
           Byte.x00; Byte.x00; Byte.x00; Byte.x01; Byte.x42]]
         (Some "EOF") [] [] None.

(** The reading end for [sample_1025] on a connection that reports errors
    with the last bytes and stays open after the frame. *)
Definition sample_link : Link :=
  mkLink (deliver (snd (Write sample_1025 fresh)) None) true.

(** The frame of the one-byte message "A" on a connection that reports
    the end of the stream together with the last bytes. *)
Definition frame_with_eof : Link :=
  mkLink (mkConn [[Byte.x00; Byte.x00; Byte.x00; Byte.x01; Byte.x41]]
                 (Some "EOF") [] [] None) true.

End Frame.

(** * Effects of the request handlers

    A handler logs, calls collaborators, answers on its connection and
    closes it; a Go function may also panic.  A computation is the list
    of the effects it performed, in order, with what it came to. *)

Module Eff.

(** [err.Error()] of a Go [error]. *)
Definition error := string.

(** An accepted [net.Conn], by name. *)
Definition ConnId := nat.

(** [crypto.SignerOpts] as the signing requests build them: a hash, and
    for RSA-PSS the salt length. *)
Record SignerOpts := mkOpts {
  HashFunc : Z;
  SaltLength : option Z
}.

(** An operand of a format string or of a log call. *)
Inductive Arg :=
| ArgErr (e : error)
| ArgUint (n : Z)
| ArgBytes (b : bytes)
| ArgHex (b : bytes)            (* hex.EncodeToString(b) *)
| ArgOpts (o : SignerOpts).

Inductive Event :=
| EvLog (text : string) (args : list Arg)
| EvEnter (fn : string)
    (* a request handler starts *)
| EvCall (callee : string) (ok : bool)
    (* the callee returned; [ok] is [err == nil], or true for a callee
       that returns no error *)
| EvSend (conn : ConnId) (payload : bytes) (msgType : Z)
    (* api.Send(conn, payload, msgType) *)
| EvSendError (conn : ConnId) (format : string) (args : list Arg)
    (* api.SendError(conn, format, args...) *)
| EvClose (conn : ConnId).

Definition Trace := list Event.

(** The value of a run-time panic: a method call through a nil interface
    value (Go's "runtime error: invalid memory address or nil pointer
    dereference"), or a type assertion [x.(iface)] that does not hold (a
    [runtime.TypeAssertionError], whose text names the dynamic type). *)
Inductive PanicValue :=
| NilDereference
| NotA (iface : string).

Inductive Run (A : Type) :=
| Ret (a : A)
| Panic (what : PanicValue).
Arguments Ret {A} a.
Arguments Panic {A} what.

Definition M (A : Type) : Type := Trace * Run A.

Definition ret {A : Type} (a : A) : M A := ([], Ret a).

Definition bind {A B : Type} (m : M A) (k : A -> M B) : M B :=
  match m with
  | (t, Ret a) => let (t', r) := k a in (t ++ t', r)
  | (t, Panic what) => (t, Panic what)
  end.

Definition emit (e : Event) : M unit := ([e], Ret tt).

Definition enter (fn : string) : M unit := emit (EvEnter fn).

Definition panic {A : Type} (what : PanicValue) : M A := ([], Panic what).

(** [defer d] at the head of a function: [d] runs when the body returns
    and when it panics. *)
Definition defer {A : Type} (d : M unit) (body : M A) : M A :=
  let (t, r) := body in (t ++ fst d, r).

Definition is_ok {A : Type} (r : error + A) : bool :=
  match r with inl _ => false | inr _ => true end.

(** A call [v, err := f(...)], given what it returns. *)
Definition call {A : Type} (callee : string) (r : error + A) : M (error + A) :=
  ([EvCall callee (is_ok r)], Ret r).

(** A call [v := f(...)] of a callee without error result. *)
Definition invoke {A : Type} (callee : string) (a : A) : M A :=
  ([EvCall callee true], Ret a).

Definition trace {A : Type} (m : M A) : Trace := fst m.
Definition outcome {A : Type} (m : M A) : Run A := snd m.

(** ** Reading a trace *)

Definition is_log (e : Event) : bool :=
  match e with EvLog _ _ => true | _ => false end.

(** Answers on the connection: [api.Send] and [api.SendError]. *)
Definition is_response (e : Event) : bool :=
  match e with EvSend _ _ _ | EvSendError _ _ _ => true | _ => false end.

Definition is_call (callee : string) (e : Event) : bool :=
  match e with EvCall f _ => String.eqb f callee | _ => false end.

Definition is_failed_call (e : Event) : bool :=
  match e with EvCall _ false => true | _ => false end.

Definition is_enter (e : Event) : bool :=
  match e with EvEnter _ => true | _ => false end.

Definition is_close (e : Event) : bool :=
  match e with EvClose _ => true | _ => false end.

Definition responses (t : Trace) : Trace := filter is_response t.
Definition calls (callee : string) (t : Trace) : Trace := filter (is_call callee) t.
Definition entered (t : Trace) : Trace := filter is_enter t.
(** Everything but the log lines. *)
Definition unlogged (t : Trace) : Trace := filter (fun e => negb (is_log e)) t.

End Eff.

Declare Scope eff_scope.
Delimit Scope eff_scope with eff.
Notation "x <- m ;; k" := (Eff.bind m (fun x => k))
  (at level 61, m at next level, right associativity) : eff_scope.
Notation "m ;; k" := (Eff.bind m (fun _ => k))
  (at level 61, right associativity) : eff_scope.

(** * cmcd/socket.go: the unix-socket binding *)

Module Socket.
Import Eff.
Local Open Scope eff_scope.

(** ** Messages of package api

    The request and response structs are declared in package [api], not
    in [cmcd]; the fields are the ones the handlers read and write, with
    the types the spec gives them. *)

(** Modelled from the spec: [api.AttestationRequest]. *)
Record AttestationRequest := { Nonce : bytes }.

(** Modelled from the spec: [api.AttestationResponse]. *)
Record AttestationResponse := { AttestationReport : bytes }.

(** Modelled from the spec: [api.VerificationRequest]. *)
Record VerificationRequest := {
  vreq_AttestationReport : bytes;
  vreq_Nonce : bytes;
  Ca : bytes;
  Policies : bytes
}.

(** Modelled from the spec: [api.VerificationResponse]. *)
Record VerificationResponse := { VerificationResult : bytes }.

(** Modelled from the spec: [api.TLSSignRequest]; [tlscert] reads its
    [Id]. *)
Record TLSSignRequest := {
  Id : bytes;
  Content : bytes;
  Hashtype : Z;
  PssOpts : bytes
}.

(** Modelled from the spec: [api.TLSSignResponse]. *)
Record TLSSignResponse := { SignedContent : bytes }.

(** Modelled from the spec: [api.TLSCertResponse]. *)
Record TLSCertResponse := { Certificate : list bytes }.

Section Binding.

(** The values the handlers only pass on. *)
Context {Metadata Measurements Serializer PolicyEngineSelect : Type}.
Context {Report ar_VerificationResult Cert : Type}.

(** A [crypto.PrivateKey] is any value; [as_crypto_Signer] is its [Sign]
    method when it has one, that is, when the type assertion
    [key.(crypto.Signer)] holds. *)
Record PrivateKey := {
  as_crypto_Signer : option (bytes -> SignerOpts -> error + bytes)
}.

(** The signer interface of the configuration.  [GetSigningKeys] also
    returns a public key, which the handlers drop. *)
Record Signer := {
  GetSigningKeys : error + PrivateKey;
  GetCertChain : list Cert
}.

(** [ServerConfig]; a nil [Signer] is [None]. *)
Record ServerConfig := {
  conf_Metadata : Metadata;
  MeasurementInterfaces : Measurements;
  conf_Serializer : Serializer;
  conf_PolicyEngineSelect : PolicyEngineSelect;
  conf_Signer : option Signer
}.

(** What the handlers call outside this file: the message types and the
    transport of package [api], the serializers, the report engine. *)
Record Externals := {
  TypeAttest : Z;
  TypeVerify : Z;
  TypeTLSSign : Z;
  TypeTLSCert : Z;
  api_Receive : ConnId -> error + (bytes * Z);
  api_HashToSignerOpts : Z -> bytes -> error + SignerOpts;
  Unmarshal_AttestationRequest : bytes -> error + AttestationRequest;
  Unmarshal_VerificationRequest : bytes -> error + VerificationRequest;
  Unmarshal_TLSSignRequest : bytes -> error + TLSSignRequest;
  Marshal_AttestationResponse : AttestationResponse -> error + bytes;
  Marshal_VerificationResponse : VerificationResponse -> error + bytes;
  Marshal_TLSSignResponse : TLSSignResponse -> error + bytes;
  Marshal_TLSCertResponse : TLSCertResponse -> error + bytes;
  json_Marshal : ar_VerificationResult -> error + bytes;
  ar_Generate : bytes -> Metadata -> Measurements -> Serializer -> error + Report;
  ar_Sign : Report -> Signer -> Serializer -> error + bytes;
  ar_Verify : bytes -> bytes -> bytes -> bytes -> PolicyEngineSelect -> Serializer
              -> ar_VerificationResult;
  internal_WriteCertsPem : list Cert -> list bytes
}.

Variable X : Externals.

Definition log (text : string) (args : list Arg) : M unit := emit (EvLog text args).

Definition api_Send (conn : ConnId) (payload : bytes) (msgType : Z) : M unit :=
  emit (EvSend conn payload msgType).

Definition api_SendError (conn : ConnId) (format : string) (args : list Arg) : M unit :=
  emit (EvSendError conn format args).

(** [func attest(conn net.Conn, payload []byte, conf *ServerConfig)] *)
Definition attest (conn : ConnId) (payload : bytes) (conf : ServerConfig) : M unit :=
  enter "attest" ;;
  log "Prover: Received attestation request" [] ;;
  r <- call "cbor.Unmarshal" (Unmarshal_AttestationRequest X payload) ;;
  match r with
  | inl err => api_SendError conn "failed to unmarshal attestation request: %v" [ArgErr err]
  | inr req =>
  log "Prover: Generating Attestation Report with nonce: %v" [ArgHex (Nonce req)] ;;
  r <- call "ar.Generate"
         (ar_Generate X (Nonce req) (conf_Metadata conf) (MeasurementInterfaces conf)
                      (conf_Serializer conf)) ;;
  match r with
  | inl err => api_SendError conn "failed to generate attestation report: %v" [ArgErr err]
  | inr report =>
  match conf_Signer conf with
  | None =>
      api_SendError conn
        "Failed to sign attestation report: No valid signer specified in config" []
  | Some signer =>
  log "Prover: Signing Attestation Report" [] ;;
  r <- call "ar.Sign" (ar_Sign X report signer (conf_Serializer conf)) ;;
  match r with
  | inl err => api_SendError conn "Failed to sign attestation report: %v" [ArgErr err]
  | inr r =>
  let resp := {| AttestationReport := r |} in
  d <- call "cbor.Marshal" (Marshal_AttestationResponse X resp) ;;
  match d with
  | inl err => api_SendError conn "failed to marshal message: %v" [ArgErr err]
  | inr data =>
  api_Send conn data (TypeAttest X) ;;
  log "Prover: Finished" []
  end end end end end.

(** [func verify(conn net.Conn, payload []byte, conf *ServerConfig)] *)
Definition verify (conn : ConnId) (payload : bytes) (conf : ServerConfig) : M unit :=
  enter "verify" ;;
  log "Received Connection Request Type 'Verification Request'" [] ;;
  r <- call "cbor.Unmarshal" (Unmarshal_VerificationRequest X payload) ;;
  match r with
  | inl err => api_SendError conn "Failed to unmarshal verification request: %v" [ArgErr err]
  | inr req =>
  log "Verifier: Verifying Attestation Report" [] ;;
  result <- invoke "ar.Verify"
              (ar_Verify X (vreq_AttestationReport req) (vreq_Nonce req) (Ca req)
                         (Policies req) (conf_PolicyEngineSelect conf)
                         (conf_Serializer conf)) ;;
  log "Verifier: Marshaling Attestation Result" [] ;;
  r <- call "json.Marshal" (json_Marshal X result) ;;
  match r with
  | inl err =>
      api_SendError conn "Verifier: failed to marshal Attestation Result: %v" [ArgErr err]
  | inr r =>
  let resp := {| VerificationResult := r |} in
  d <- call "cbor.Marshal" (Marshal_VerificationResponse X resp) ;;
  match d with
  | inl err => api_SendError conn "failed to marshal message: %v" [ArgErr err]
  | inr data =>
  api_Send conn data (TypeVerify X) ;;
  log "Verifier: Finished" []
  end end end.

(** [func tlssign(conn net.Conn, payload []byte, conf *ServerConfig)] *)
Definition tlssign (conn : ConnId) (payload : bytes) (conf : ServerConfig) : M unit :=
  enter "tlssign" ;;
  log "Received TLS sign request" [] ;;
  r <- call "cbor.Unmarshal" (Unmarshal_TLSSignRequest X payload) ;;
  match r with
  | inl err => api_SendError conn "failed to unmarshal payload: %v" [ArgErr err]
  | inr req =>
  o <- call "api.HashToSignerOpts" (api_HashToSignerOpts X (Hashtype req) (PssOpts req)) ;;
  match o with
  | inl err => api_SendError conn "failed to choose requested hash function: %v" [ArgErr err]
  | inr opts =>
  match conf_Signer conf with
  | None => panic NilDereference
  | Some signer =>
  k <- call "conf.Signer.GetSigningKeys" (GetSigningKeys signer) ;;
  match k with
  | inl err => api_SendError conn "failed to get IK: %v" [ArgErr err]
  | inr tlsKeyPriv =>
  log "TLSSign using opts: " [ArgOpts opts] ;;
  match as_crypto_Signer tlsKeyPriv with
  | None => panic (NotA "crypto.Signer")
  | Some Sign =>
  s <- call "crypto.Signer.Sign" (Sign (Content req) opts) ;;
  match s with
  | inl err => api_SendError conn "failed to sign: %v" [ArgErr err]
  | inr signature =>
  let resp := {| SignedContent := signature |} in
  d <- call "cbor.Marshal" (Marshal_TLSSignResponse X resp) ;;
  match d with
  | inl err => api_SendError conn "failed to marshal message: %v" [ArgErr err]
  | inr data =>
  api_Send conn data (TypeTLSSign X) ;;
  log "Performed signing" []
  end end end end end end end.

(** [func tlscert(conn net.Conn, payload []byte, conf *ServerConfig)];
    the payload is decoded as a [TLSSignRequest], as in the source. *)
Definition tlscert (conn : ConnId) (payload : bytes) (conf : ServerConfig) : M unit :=
  enter "tlscert" ;;
  log "Received TLS cert request" [] ;;
  r <- call "cbor.Unmarshal" (Unmarshal_TLSSignRequest X payload) ;;
  match r with
  | inl err => api_SendError conn "failed to unmarshal payload: %v" [ArgErr err]
  | inr req =>
  log "Received TLS cert request with ID %v" [ArgBytes (Id req)] ;;
  match conf_Signer conf with
  | None => panic NilDereference
  | Some signer =>
  certChain <- invoke "conf.Signer.GetCertChain" (GetCertChain signer) ;;
  pem <- invoke "internal.WriteCertsPem" (internal_WriteCertsPem X certChain) ;;
  let resp := {| Certificate := pem |} in
  d <- call "cbor.Marshal" (Marshal_TLSCertResponse X resp) ;;
  match d with
  | inl err => api_SendError conn "failed to marshal message: %v" [ArgErr err]
  | inr data =>
  api_Send conn data (TypeTLSCert X) ;;
  log "Obtained TLS cert" []
  end end end.

(** The [switch reqType] of [handleIncoming]: the first case that matches. *)
Definition dispatch (conn : ConnId) (payload : bytes) (reqType : Z)
           (conf : ServerConfig) : M unit :=
  if reqType =? TypeAttest X then attest conn payload conf
  else if reqType =? TypeVerify X then verify conn payload conf
  else if reqType =? TypeTLSCert X then tlscert conn payload conf
  else if reqType =? TypeTLSSign X then tlssign conn payload conf
  else api_SendError conn "Invalid Type: %v" [ArgUint reqType].

(** [func handleIncoming(conn net.Conn, conf *ServerConfig)] *)
Definition handleIncoming (conn : ConnId) (conf : ServerConfig) : M unit :=
  defer (emit (EvClose conn))
    (r <- call "api.Receive" (api_Receive X conn) ;;
     match r with
     | inl err => api_SendError conn "Failed to receive: %v" [ArgErr err]
     | inr (payload, reqType) => dispatch conn payload reqType conf
     end).

End Binding.

End Socket.

(** * cmcd/api.go: the gRPC binding *)

Module Grpc.
Import Eff.
Local Open Scope eff_scope.

(** ** Messages of package cmcinterface

    The structs are generated into package [cmcinterface], not written
    in [cmcd]; the fields are the ones the handlers read and write.  A
    field left out of a composite literal has Go's zero value, the nil
    slice, written [[]]. *)

(** Modelled from the spec: [ci.Status], success or failure. *)
Inductive Status := Status_OK | Status_FAIL.

(** Modelled from the spec: [ci.AttestationRequest]. *)
Record AttestationRequest := { Nonce : bytes }.

(** Modelled from the spec: [ci.AttestationResponse]. *)
Record AttestationResponse := {
  ares_Status : Status;
  AttestationReport : bytes
}.

(** Modelled from the spec: [ci.VerificationRequest]. *)
Record VerificationRequest := {
  vreq_AttestationReport : bytes;
  vreq_Nonce : bytes
}.

(** Modelled from the spec: [ci.VerificationResponse]. *)
Record VerificationResponse := {
  vres_Status : Status;
  VerificationResult : bytes
}.

(** Modelled from the spec: [ci.TLSSignRequest]. *)
Record TLSSignRequest := {
  Content : bytes;
  Hashtype : Z;
  PssOpts : bytes
}.

(** Modelled from the spec: [ci.TLSSignResponse]. *)
Record TLSSignResponse := {
  sres_Status : Status;
  SignedContent : bytes
}.

(** Modelled from the spec: [ci.TLSCertRequest]. *)
Record TLSCertRequest := { Id : bytes }.

(** Modelled from the spec: [ci.TLSCertResponse]. *)
Record TLSCertResponse := {
  cres_Status : Status;
  Certificate : list bytes
}.

(** [s.certs]; only [s.certs.TLSCert] is compared with nil, which is [None]. *)
Record Certs := {
  Ak : bytes;
  DeviceSubCa : bytes;
  Ca : bytes;
  certs_TLSCert : option bytes
}.

(** A possibly nil slice as an element of a slice literal. *)
Definition slice (b : option bytes) : bytes :=
  match b with Some x => x | None => [] end.

Record Config := {
  UseIma : bool;
  ImaPcr : Z
}.

(** [ar.TpmCerts] and [ar.TpmParams] as [Attest] fills them. *)
Record TpmCerts := {
  AkCert : bytes;
  Intermediates : list bytes;
  CaCert : bytes
}.

Section Binding.

Context {Pcrs Metadata Tpm Roles Report ar_VerificationResult PublicKey : Type}.

Record TpmParams := {
  tp_Nonce : bytes;
  tp_Pcrs : Pcrs;
  tp_Certs : TpmCerts;
  tp_UseIma : bool;
  tp_ImaPcr : Z
}.

(** The receiver [s *server]. *)
Record server := {
  pcrs : Pcrs;
  certs : Certs;
  config : Config;
  metadata : Metadata;
  tpm : Tpm;
  roles : Roles
}.

(** A [crypto.PrivateKey] with its [Sign] method, when the type
    assertion [key.(crypto.Signer)] holds. *)
Record PrivateKey := {
  as_crypto_Signer : option (bytes -> SignerOpts -> error + bytes)
}.

(** What the handlers call outside this file.  [ar.Sign] also takes the
    mutex of the TPM, which has no part in what it returns here. *)
Record Externals := {
  ar_Generate : bytes -> Metadata -> list Tpm -> list TpmParams -> Report;
  tpmdriver_GetTLSKey : error + (PrivateKey * PublicKey);
  ar_Sign : Report -> PrivateKey -> PublicKey -> list bytes -> bool * bytes;
  ar_Verify : bytes -> bytes -> bytes -> Roles -> ar_VerificationResult;
  json_Marshal : ar_VerificationResult -> error + bytes;
  convertHash : Z -> bytes -> error + SignerOpts
}.

Variable X : Externals.

Definition log (text : string) (args : list Arg) : M unit := emit (EvLog text args).

(** A Go result pair of a pointer and an error; nil is [None]. *)
Definition Reply (T : Type) : Type := (option T * option error)%type.

(** The local [tpmParams] of [Attest]. *)
Definition tpmParams (s : server) (req : AttestationRequest) : TpmParams :=
  {| tp_Nonce := Nonce req;
     tp_Pcrs := pcrs s;
     tp_Certs := {| AkCert := Ak (certs s);
                    Intermediates := [DeviceSubCa (certs s)];
                    CaCert := Ca (certs s) |};
     tp_UseIma := UseIma (config s);
     tp_ImaPcr := ImaPcr (config s) |}.

(** The local [certsPem] of [Attest]. *)
Definition certsPem (s : server) : list bytes :=
  [slice (certs_TLSCert (certs s)); DeviceSubCa (certs s); Ca (certs s)].

(** The report [a] that [Attest] has [ar.Generate] build. *)
Definition generated (s : server) (req : AttestationRequest) : Report :=
  ar_Generate X (Nonce req) (metadata s) [tpm s] [tpmParams s req].

(** [func (s *server) Attest(ctx, in)], which returns a [AttestationResponse] and an error *)
Definition Attest (s : server) (req : AttestationRequest)
  : M (Reply AttestationResponse) :=
  log "Prover: Generating Attestation Report with nonce: " [ArgHex (Nonce req)] ;;
  a <- invoke "ar.Generate" (generated s req) ;;
  log "Prover: Signing Attestation Report" [] ;;
  k <- call "tpmdriver.GetTLSKey" (tpmdriver_GetTLSKey X) ;;
  match k with
  | inl err =>
      log "Prover: Failed to get TLS Key" [] ;;
      ret (Some {| ares_Status := Status_FAIL; AttestationReport := [] |}, None)
  | inr (tlsKeyPriv, tlsKeyPub) =>
  let signed := ar_Sign X a tlsKeyPriv tlsKeyPub (certsPem s) in
  emit (EvCall "ar.Sign" (fst signed)) ;;
  status <- (if negb (fst signed)
             then log "Prover: Failed to sign Attestion Report " [] ;; ret Status_FAIL
             else ret Status_OK) ;;
  log "Prover: Finished" [] ;;
  ret (Some {| ares_Status := status; AttestationReport := snd signed |}, None)
  end.

(** [func (s *server) Verify(ctx, in)], which returns a [VerificationResponse] and an error;
    when [json.Marshal] fails its first result is nil. *)
Definition Verify (s : server) (req : VerificationRequest)
  : M (Reply VerificationResponse) :=
  log "Received Connection Request Type 'Verification Request'" [] ;;
  log "Verifier: Verifying Attestation Report" [] ;;
  result <- invoke "ar.Verify"
              (ar_Verify X (vreq_AttestationReport req) (vreq_Nonce req)
                         (Ca (certs s)) (roles s)) ;;
  log "Verifier: Marshaling Attestation Result" [] ;;
  r <- call "json.Marshal" (json_Marshal X result) ;;
  sd <- match r with
        | inl err =>
            log "Verifier: Failed to marshal Attestation Result: %v" [ArgErr err] ;;
            ret (Status_FAIL, [])
        | inr data => ret (Status_OK, data)
        end ;;
  let response := {| vres_Status := fst sd; VerificationResult := snd sd |} in
  log "Verifier: Finished" [] ;;
  ret (Some response, None).

(** [func (s *server) TLSSign(ctx, in)], which returns a [TLSSignResponse] and an error *)
Definition TLSSign (s : server) (req : TLSSignRequest)
  : M (Reply TLSSignResponse) :=
  o <- call "convertHash" (convertHash X (Hashtype req) (PssOpts req)) ;;
  match o with
  | inl err =>
      log "[Prover] Failed to choose requested hash function." [ArgErr err] ;;
      ret (Some {| sres_Status := Status_FAIL; SignedContent := [] |},
           Some "Prover: Failed to find appropriate hash function")
  | inr opts =>
  k <- call "tpmdriver.GetTLSKey" (tpmdriver_GetTLSKey X) ;;
  match k with
  | inl err =>
      log "[Prover] Failed to get TLS key. " [ArgErr err] ;;
      ret (Some {| sres_Status := Status_FAIL; SignedContent := [] |},
           Some "Prover: Failed to get TLS key")
  | inr (tlsKeyPriv, _) =>
  log "[Prover] TLSSign using opts: " [ArgOpts opts] ;;
  match as_crypto_Signer tlsKeyPriv with
  | None => panic (NotA "crypto.Signer")
  | Some Sign =>
  g <- call "crypto.Signer.Sign" (Sign (Content req) opts) ;;
  match g with
  | inl err =>
      log "[Prover] " [ArgErr err] ;;
      ret (Some {| sres_Status := Status_FAIL; SignedContent := [] |},
           Some "Prover: Failed to perform Signing operation")
  | inr signature =>
  let sr := {| sres_Status := Status_OK; SignedContent := signature |} in
  log "Prover: Performed Sign operation." [] ;;
  ret (Some sr, None)
  end end end end.

(** [func (s *server) TLSCert(ctx, in)], which returns a [TLSCertResponse] and an error *)
Definition TLSCert (s : server) (req : TLSCertRequest)
  : M (Reply TLSCertResponse) :=
  match certs_TLSCert (certs s) with
  | None =>
      log "Prover: TLS Certificate not found - was the device provisioned correctly?" [] ;;
      ret (Some {| cres_Status := Status_FAIL; Certificate := [] |},
           Some "No TLS Certificate obtained")
  | Some cert =>
      let resp := {| cres_Status := Status_OK;
                     Certificate := [cert; DeviceSubCa (certs s)] |} in
      log "Prover: Obtained TLS Cert." [] ;;
      ret (Some resp, None)
  end.

End Binding.

End Grpc.

(** * A small world to run the handlers in *)

Module Demo.
Import Eff.

(** ** Socket binding

    Message types 1 to 4; a report is the nonce it was generated for, and
    generation fails on a nonce that starts with 0xff; verification
    passes when report and nonce agree.  Connection 0 fails to deliver a
    request; the others carry one request each. *)
Definition world : @Socket.Externals unit unit unit unit bytes bool bytes :=
  {| Socket.TypeAttest := 1;
     Socket.TypeVerify := 2;
     Socket.TypeTLSSign := 3;
     Socket.TypeTLSCert := 4;
     Socket.api_Receive := fun conn =>
       match conn with
       | 0%nat => inl "EOF"
       | 1%nat => inr ([Byte.x01; Byte.x02], 1)
       | 2%nat => inr ([Byte.xff], 1)
       | 3%nat => inr ([Byte.x01; Byte.x01], 2)
       | 4%nat => inr ([Byte.x01; Byte.x02], 2)
       | 5%nat => inr ([Byte.x07; Byte.x2a], 4)
       | 6%nat => inr ([Byte.x08; Byte.x2a], 4)
       | 7%nat => inr ([Byte.x07; Byte.x2a], 3)
       | _ => inr ([], 255)
       end;
     Socket.api_HashToSignerOpts := fun h _ => inr (mkOpts h None);
     Socket.Unmarshal_AttestationRequest := fun p =>
       match p with
       | [] => inl "EOF"
       | _ => inr {| Socket.Nonce := p |}
       end;
     Socket.Unmarshal_VerificationRequest := fun p =>
       match p with
       | r :: n :: _ =>
           inr {| Socket.vreq_AttestationReport := [r]; Socket.vreq_Nonce := [n];
                  Socket.Ca := []; Socket.Policies := [] |}
       | _ => inl "unexpected EOF"
       end;
     Socket.Unmarshal_TLSSignRequest := fun p =>
       match p with
       | id :: content =>
           inr {| Socket.Id := [id]; Socket.Content := content;
                  Socket.Hashtype := 5; Socket.PssOpts := [] |}
       | [] => inl "EOF"
       end;
     Socket.Marshal_AttestationResponse := fun r => inr (Socket.AttestationReport r);
     Socket.Marshal_VerificationResponse := fun r => inr (Socket.VerificationResult r);
     Socket.Marshal_TLSSignResponse := fun r => inr (Socket.SignedContent r);
     Socket.Marshal_TLSCertResponse := fun r => inr (concat (Socket.Certificate r));
     Socket.json_Marshal := fun v : bool => inr [if v then Byte.x01 else Byte.x00];
     Socket.ar_Generate := fun nonce _ _ _ =>
       match nonce with
       | Byte.xff :: _ => inl "tpm unavailable"
       | _ => inr nonce
       end;
     Socket.ar_Sign := fun report _ _ => inr (report ++ [Byte.x53]);
     Socket.ar_Verify := fun report nonce _ _ _ _ =>
       match report, nonce with
       | [a], [b] => Byte.eqb a b
       | _, _ => false
       end;
     Socket.internal_WriteCertsPem := fun chain => chain |}.

Definition signer : @Socket.Signer bytes :=
  {| Socket.GetSigningKeys :=
       inr {| Socket.as_crypto_Signer := Some (fun content _ => inr content) |};
     Socket.GetCertChain := [[Byte.x30]] |}.

Definition conf_signed : @Socket.ServerConfig unit unit unit unit bytes :=
  {| Socket.conf_Metadata := tt;
     Socket.MeasurementInterfaces := tt;
     Socket.conf_Serializer := tt;
     Socket.conf_PolicyEngineSelect := tt;
     Socket.conf_Signer := Some signer |}.

Definition conf_unsigned : @Socket.ServerConfig unit unit unit unit bytes :=
  {| Socket.conf_Metadata := tt;
     Socket.MeasurementInterfaces := tt;
     Socket.conf_Serializer := tt;
     Socket.conf_PolicyEngineSelect := tt;
     Socket.conf_Signer := None |}.

(** Two TLSCert requests that differ in their id, 07 and 08. *)
Definition cert_request_7 : bytes := [Byte.x07; Byte.x2a].
Definition cert_request_8 : bytes := [Byte.x08; Byte.x2a].

(** A verification request whose report, 01, is not for its nonce, 02. *)
Definition stale_report : bytes := [Byte.x01; Byte.x02].

(** ** gRPC binding

    Hash 0 is not supported.  In [world_nokey] the TPM driver has no TLS
    key; in [world_badkey] it has one, and every signature fails. *)
Definition world_nokey : @Grpc.Externals unit unit unit unit bytes bool unit :=
  {| Grpc.ar_Generate := fun nonce _ _ _ => nonce;
     Grpc.tpmdriver_GetTLSKey := inl "no TLS key";
     Grpc.ar_Sign := fun a _ _ _ => (false, []);
     Grpc.ar_Verify := fun report nonce _ _ =>
       match report, nonce with
       | [a], [b] => Byte.eqb a b
       | _, _ => false
       end;
     Grpc.json_Marshal := fun v : bool => inr [if v then Byte.x01 else Byte.x00];
     Grpc.convertHash := fun h _ =>
       if h =? 0 then inl "unsupported hash" else inr (mkOpts h None) |}.

Definition badkey : Grpc.PrivateKey :=
  {| Grpc.as_crypto_Signer := Some (fun _ _ => inl "sign failed") |}.

Definition world_badkey : @Grpc.Externals unit unit unit unit bytes bool unit :=
  {| Grpc.ar_Generate := fun nonce _ _ _ => nonce;
     Grpc.tpmdriver_GetTLSKey := inr (badkey, tt);
     Grpc.ar_Sign := fun a _ _ _ => (false, a);
     Grpc.ar_Verify := fun report nonce _ _ =>
       match report, nonce with
       | [a], [b] => Byte.eqb a b
       | _, _ => false
       end;
     Grpc.json_Marshal := fun v : bool => inr [if v then Byte.x01 else Byte.x00];
     Grpc.convertHash := fun h _ =>
       if h =? 0 then inl "unsupported hash" else inr (mkOpts h None) |}.

(** A server that was not provisioned with a TLS certificate. *)
Definition unprovisioned : @Grpc.server unit unit unit unit :=
  {| Grpc.pcrs := tt;
     Grpc.certs := {| Grpc.Ak := [Byte.x0a]; Grpc.DeviceSubCa := [Byte.x0b];
                      Grpc.Ca := [Byte.x0c]; Grpc.certs_TLSCert := None |};
     Grpc.config := {| Grpc.UseIma := false; Grpc.ImaPcr := 10 |};
     Grpc.metadata := tt;
     Grpc.tpm := tt;
     Grpc.roles := tt |}.

(** The gRPC request for the same stale report. *)
Definition grpc_stale_report : Grpc.VerificationRequest :=
  {| Grpc.vreq_AttestationReport := [Byte.x01]; Grpc.vreq_Nonce := [Byte.x02] |}.

End Demo.

(** * Using the frame codec *)

Module Session.
Import Frame.

(** The buffer [Write] hands to [c.Write] for the message [msg]. *)
Definition frame (msg : bytes) : bytes :=
  PutUint32 (uint32 (Z.of_nat (length msg))) ++ msg.

(** The length [Read] takes from its first [c.Read]: the bytes of the
    first segment that fit the 4-byte buffer, the rest of the buffer
    left at zero. *)
Definition decoded_length (c : Conn) : Z :=
  match pending c with
  | seg :: _ => Uint32 (fill (repeat Byte.x00 4) (firstn 4 seg))
  | [] => 0
  end.

(** What the first [c.Read] of [Read] takes off the stream. *)
Definition prefix_read (c : Conn) : bytes :=
  match pending c with
  | seg :: _ => firstn 4 seg
  | [] => []
  end.

(** Successive calls of [Write] on one connection, errors ignored. *)
Fixpoint Write_all (msgs : list bytes) (w : Conn) : Conn :=
  match msgs with
  | [] => w
  | msg :: rest => Write_all rest (snd (Write msg w))
  end.

(** [n] successive calls of [Read] on one connection. *)
Fixpoint Read_n {C : Type} `{NetConn C} (n : nat) (c : C) : list Result * C :=
  match n with
  | O => ([], c)
  | S k =>
      let (r, c1) := Read c in
      let (rs, c2) := Read_n k c1 in
      (r :: rs, c2)
  end.

(** A message the frame can carry: not empty, shorter than 2^32 bytes. *)
Definition sendable (msg : bytes) : Prop :=
  msg <> [] /\ Z.of_nat (length msg) < 2 ^ 32.


(** Two messages to send one after the other. *)
Definition two_messages : list bytes := [[Byte.x41]; [Byte.x42; Byte.x43]].

(** The reading end for [two_messages] on a connection that reports
    errors with the last bytes and stays open after them. *)
Definition two_messages_link : Link :=
  mkLink (deliver (Write_all two_messages fresh) None) true.

(** A connection that refuses writes. *)
Definition broken_pipe : Conn := mkConn [] None [] [] (Some "broken pipe").

End Session.

(** * Reading the trace of a handler *)

Module Audit.
Import Eff.

(** The effect [e] concerns the connection [conn] and, when it is a
    success answer, carries the message type [reqType]. *)
Definition about (conn : ConnId) (reqType : Z) (e : Event) : Prop :=
  match e with
  | EvSend c _ t => c = conn /\ t = reqType
  | EvSendError c _ _ => c = conn
  | EvClose c => c = conn
  | _ => True
  end.

Definition is_send (e : Event) : bool :=
  match e with EvSend _ _ _ => true | _ => false end.

(** A call that does the work of a request: any call but receiving and
    unmarshalling it. *)
Definition is_work (e : Event) : bool :=
  match e with
  | EvCall f _ => negb (String.eqb f "api.Receive") && negb (String.eqb f "cbor.Unmarshal")
  | _ => false
  end.

Definition is_failed_unmarshal (e : Event) : bool :=
  match e with
  | EvCall f false => String.eqb f "cbor.Unmarshal"
  | _ => false
  end.

End Audit.

(** * More runs *)

Module Demo2.
Import Eff.

(** [Demo.world] with other connections: connection 0 carries an Attest
    request with an empty payload, which does not unmarshal. *)
Definition world : @Socket.Externals unit unit unit unit bytes bool bytes :=
  {| Socket.TypeAttest := Socket.TypeAttest Demo.world;
     Socket.TypeVerify := Socket.TypeVerify Demo.world;
     Socket.TypeTLSSign := Socket.TypeTLSSign Demo.world;
     Socket.TypeTLSCert := Socket.TypeTLSCert Demo.world;
     Socket.api_Receive := fun conn =>
       match conn with
       | 0%nat => inr ([], 1)
       | _ => Socket.api_Receive Demo.world conn
       end;
     Socket.api_HashToSignerOpts := Socket.api_HashToSignerOpts Demo.world;
     Socket.Unmarshal_AttestationRequest := Socket.Unmarshal_AttestationRequest Demo.world;
     Socket.Unmarshal_VerificationRequest := Socket.Unmarshal_VerificationRequest Demo.world;
     Socket.Unmarshal_TLSSignRequest := Socket.Unmarshal_TLSSignRequest Demo.world;
     Socket.Marshal_AttestationResponse := Socket.Marshal_AttestationResponse Demo.world;
     Socket.Marshal_VerificationResponse := Socket.Marshal_VerificationResponse Demo.world;
     Socket.Marshal_TLSSignResponse := Socket.Marshal_TLSSignResponse Demo.world;
     Socket.Marshal_TLSCertResponse := Socket.Marshal_TLSCertResponse Demo.world;
     Socket.json_Marshal := Socket.json_Marshal Demo.world;
     Socket.ar_Generate := Socket.ar_Generate Demo.world;
     Socket.ar_Sign := Socket.ar_Sign Demo.world;
     Socket.ar_Verify := Socket.ar_Verify Demo.world;
     Socket.internal_WriteCertsPem := Socket.internal_WriteCertsPem Demo.world |}.

(** A gRPC world with a TLS key that signs; the report engine signs
    every report. *)
Definition goodkey : Grpc.PrivateKey :=
  {| Grpc.as_crypto_Signer := Some (fun content _ => inr content) |}.

Definition world_goodkey : @Grpc.Externals unit unit unit unit bytes bool unit :=
  {| Grpc.ar_Generate := Grpc.ar_Generate Demo.world_nokey;
     Grpc.tpmdriver_GetTLSKey := inr (goodkey, tt);
     Grpc.ar_Sign := fun a _ _ _ => (true, a ++ [Byte.x53]);
     Grpc.ar_Verify := Grpc.ar_Verify Demo.world_nokey;
     Grpc.json_Marshal := Grpc.json_Marshal Demo.world_nokey;
     Grpc.convertHash := Grpc.convertHash Demo.world_nokey |}.

End Demo2.

(** * Facts about computations *)

Module EffFacts.
Import Eff.
Local Open Scope eff_scope.

Lemma bind_ret_l {A B : Type} (a : A) (k : A -> M B) : (x <- ret a ;; k x) = k a.
Proof. unfold bind, ret. now destruct (k a). Qed.

Lemma bind_ret_r {A : Type} (m : M A) : (x <- m ;; ret x) = m.
Proof.
  destruct m as [t [a | what]]; cbn; [now rewrite app_nil_r | reflexivity].
Qed.

Lemma bind_assoc {A B C : Type} (m : M A) (k : A -> M B) (h : B -> M C) :
  (y <- (x <- m ;; k x) ;; h y) = (x <- m ;; y <- k x ;; h y).
Proof.
  destruct m as [t [a | what]]; cbn; [| reflexivity].
  destruct (k a) as [t1 [b | what]]; cbn; [| reflexivity].
  destruct (h b) as [t2 r]. now rewrite app_assoc.
Qed.

(** A panic stops the function: what follows it is not run. *)
Lemma bind_panic {A B : Type} (what : PanicValue) (k : A -> M B) :
  (x <- panic what ;; k x) = panic what.
Proof. reflexivity. Qed.

(** The deferred call runs last, whether the body returns or panics. *)
Lemma defer_last {A : Type} (e : Event) (body : M A) :
  trace (defer (emit e) body) = trace body ++ [e]
  /\ outcome (defer (emit e) body) = outcome body.
Proof. destruct body as [t r]. split; reflexivity. Qed.

End EffFacts.

(** * Facts about the frame codec *)

Module FrameFacts.
Import Frame.

(** ** The length prefix *)

Lemma testbit_byte (z n : Z) :
  0 <= n ->
  Z.testbit (byte.unsigned (byte.of_Z z)) n = (n <? 8) && Z.testbit z n.
Proof.
  intros Hn. rewrite byte.unsigned_of_Z. unfold byte.wrap.
  destruct (Z.ltb_spec n 8).
  - now rewrite Z.mod_pow2_bits_low.
  - now rewrite Z.mod_pow2_bits_high by lia.
Qed.

Lemma uint32_small (z : Z) : 0 <= z < 2 ^ 32 -> uint32 z = z.
Proof. intros H. unfold uint32. now apply Z.mod_small. Qed.

Lemma uint32_range (z : Z) : 0 <= uint32 z < 2 ^ 32.
Proof. unfold uint32. apply Z.mod_pos_bound. reflexivity. Qed.

(** Decoding the four bytes [PutUint32] stores gives the value back. *)
Lemma Uint32_PutUint32 (v : Z) : 0 <= v < 2 ^ 32 -> Uint32 (PutUint32 v) = v.
Proof.
  intros Hv. unfold Uint32, PutUint32.
  apply Z.bits_inj'. intros n Hn.
  rewrite !Z.lor_spec, !Z.shiftl_spec by assumption.
  rewrite testbit_byte by assumption.
  destruct (Z.ltb_spec n 8) as [H8 | H8].
  { rewrite !(Z.testbit_neg_r _ (n - _)) by lia.
    now rewrite !orb_false_r. }
  destruct (Z.ltb_spec n 16) as [H16 | H16].
  { rewrite !(Z.testbit_neg_r _ (n - 16)), !(Z.testbit_neg_r _ (n - 24)) by lia.
    rewrite testbit_byte, Z.shiftr_spec by lia.
    replace (n - 8 <? 8) with true by (symmetry; apply Z.ltb_lt; lia).
    cbn [andb orb]. rewrite !orb_false_r. f_equal. lia. }
  destruct (Z.ltb_spec n 24) as [H24 | H24].
  { rewrite !(Z.testbit_neg_r _ (n - 24)) by lia.
    rewrite !testbit_byte, !Z.shiftr_spec by lia.
    replace (n - 8 <? 8) with false by (symmetry; apply Z.ltb_ge; lia).
    replace (n - 16 <? 8) with true by (symmetry; apply Z.ltb_lt; lia).
    cbn [andb orb]. rewrite !orb_false_r. f_equal. lia. }
  rewrite !testbit_byte, !Z.shiftr_spec by lia.
  replace (n - 8 <? 8) with false by (symmetry; apply Z.ltb_ge; lia).
  replace (n - 16 <? 8) with false by (symmetry; apply Z.ltb_ge; lia).
  cbn [andb orb].
  destruct (Z.ltb_spec (n - 24) 8) as [H32 | H32]; cbn [andb].
  - f_equal. lia.
  - symmetry. rewrite <- (Z.mod_small v (2 ^ 32)) by assumption.
    apply Z.mod_pow2_bits_high. lia.
Qed.

Lemma unsigned_zero (b : byte) : byte.unsigned b = 0 -> b = Byte.x00.
Proof. intros H. apply byte.unsigned_inj. now rewrite H. Qed.

(** A prefix that decodes to 0 consists of four zero bytes. *)
Lemma Uint32_zero (a b c d : byte) (r : bytes) :
  Uint32 (a :: b :: c :: d :: r) = 0 ->
  a = Byte.x00 /\ b = Byte.x00 /\ c = Byte.x00 /\ d = Byte.x00.
Proof.
  unfold Uint32. intros H.
  apply Z.lor_eq_0_iff in H. destruct H as [H Ha].
  apply Z.lor_eq_0_iff in H. destruct H as [H Hb].
  apply Z.lor_eq_0_iff in H. destruct H as [Hd Hc].
  apply Z.shiftl_eq_0_iff in Ha, Hb, Hc; try lia.
  auto using unsigned_zero.
Qed.

Lemma length_PutUint32 (v : Z) : length (PutUint32 v) = 4%nat.
Proof. reflexivity. Qed.

(** ** One underlying read *)

Lemma chunk_pos : (0 < chunk)%nat.
Proof. unfold chunk. lia. Qed.

Lemma conn_Read_segment (c : Conn) (n : nat) (seg : bytes) (rest : list bytes) :
  pending c = seg :: rest ->
  conn_Read c n = (Got (firstn n seg) None, log_read c n (after_read n seg rest)).
Proof. intros E. unfold conn_Read. now rewrite E. Qed.

(** One read hands over exactly what it takes away. *)
Lemma after_read_concat (n : nat) (seg : bytes) (rest : list bytes) :
  firstn n seg ++ concat (after_read n seg rest) = concat (seg :: rest).
Proof.
  unfold after_read. destruct (Nat.ltb_spec n (length seg)); cbn [concat].
  - now rewrite app_assoc, firstn_skipn.
  - now rewrite firstn_all2 by lia.
Qed.

Lemma after_read_weight (n : nat) (seg : bytes) (rest : list bytes) :
  (0 < n)%nat -> (weight (after_read n seg rest) < weight (seg :: rest))%nat.
Proof.
  intros Hn. unfold after_read, weight.
  destruct (Nat.ltb_spec n (length seg)); cbn [fold_right].
  - rewrite length_skipn. lia.
  - lia.
Qed.

(** ** The loop ends *)

Lemma read_loop_fuel (fuel : nat) :
  forall len buf rcvlen c,
    (weight (pending c) < fuel)%nat ->
    fst (read_loop fuel len buf rcvlen c) <> OutOfFuel.
Proof.
  induction fuel as [| fuel IH]; intros len buf rcvlen c Hw; [lia |].
  cbn [read_loop c_Read plain]. destruct (pending c) as [| seg rest] eqn:E.
  - unfold conn_Read. rewrite E. destruct (at_end c); cbn; discriminate.
  - rewrite (conn_Read_segment _ _ _ _ E). cbv zeta.
    destruct (_ =? len); [cbn; discriminate |].
    apply IH. cbn [pending log_read].
    pose proof (after_read_weight chunk seg rest chunk_pos) as Hd.
    lia.
Qed.

(** [Read] returns or blocks in [c.Read]; its loop never needs more
    iterations than the model grants. *)
Lemma Read_total (c : Conn) : fst (Read c) <> OutOfFuel.
Proof.
  unfold Read; cbn [c_Read arriving plain]. destruct (conn_Read c 4) as [[data [e |] |] c1];
    try (cbn; discriminate).
  cbv zeta. destruct (_ =? 0); [cbn; discriminate |].
  apply read_loop_fuel. lia.
Qed.

(** ** The loop collects the payload *)

Lemma read_loop_exact (b : bytes) (Hb : Z.of_nat (length b) < 2 ^ 32) (fuel : nat) :
  forall buf c,
    buf ++ stream c = b ->
    (length buf < length b)%nat ->
    (weight (pending c) < fuel)%nat ->
    fst (read_loop fuel (Z.of_nat (length b)) buf (Z.of_nat (length buf)) c) = Ok b
    /\ stream (snd (read_loop fuel (Z.of_nat (length b)) buf (Z.of_nat (length buf)) c)) = [].
Proof.
  induction fuel as [| fuel IH]; intros buf c Hinv Hlt Hw; [lia |].
  cbn [read_loop c_Read plain]. unfold stream in Hinv.
  destruct (pending c) as [| seg rest] eqn:E.
  { cbn [concat] in Hinv. rewrite app_nil_r in Hinv. subst buf. lia. }
  rewrite (conn_Read_segment _ _ _ _ E). cbv zeta.
  pose proof (after_read_concat chunk seg rest) as Hcat.
  pose proof (after_read_weight chunk seg rest chunk_pos) as Hdec.
  generalize dependent (after_read chunk seg rest). intros p' Hcat Hdec.
  generalize dependent (firstn chunk seg). intros data Hcat.
  assert (Hinv' : (buf ++ data) ++ concat p' = b).
  { rewrite <- app_assoc, Hcat. exact Hinv. }
  assert (Hlen : (length (buf ++ data) + length (concat p') = length b)%nat).
  { rewrite <- length_app. now rewrite Hinv'. }
  replace (uint32 (Z.of_nat (length buf) + Z.of_nat (length data)))
    with (Z.of_nat (length (buf ++ data)))
    by (rewrite length_app in *; rewrite uint32_small; lia).
  destruct (Z.eqb_spec (Z.of_nat (length (buf ++ data))) (Z.of_nat (length b)))
    as [Heq | Hne].
  - cbn [fst snd]. unfold stream. cbn [pending log_read].
    assert (Hnil : concat p' = []) by (apply length_zero_iff_nil; lia).
    split; [| exact Hnil].
    rewrite Hnil, app_nil_r in Hinv'. now rewrite Hinv'.
  - apply IH.
    + unfold stream. cbn [pending log_read]. exact Hinv'.
    + lia.
    + cbn [pending log_read]. lia.
Qed.

(** ** Reading one frame *)

Lemma fill_PutUint32 (v : Z) :
  fill (repeat Byte.x00 4) (PutUint32 v) = PutUint32 v.
Proof. reflexivity. Qed.

(** A frame whose first segment holds the whole length prefix is read
    back, however the transport cuts the rest. *)
Lemma Read_frame (b : bytes) (c : Conn) (seg : bytes) (rest : list bytes) :
  b <> [] ->
  Z.of_nat (length b) < 2 ^ 32 ->
  pending c = seg :: rest ->
  (4 <= length seg)%nat ->
  stream c = PutUint32 (Z.of_nat (length b)) ++ b ->
  fst (Read c) = Ok b /\ stream (snd (Read c)) = [].
Proof.
  intros Hne Hlt E Hseg Hs.
  assert (Hpos : 0 < Z.of_nat (length b)).
  { destruct b; [contradiction | cbn [length]; lia]. }
  pose proof (after_read_concat 4 seg rest) as Hcat.
  unfold stream in Hs. rewrite E in Hs. rewrite Hs in Hcat.
  assert (Hdata : firstn 4 seg = PutUint32 (Z.of_nat (length b))).
  { apply (f_equal (firstn 4)) in Hs. cbn [concat] in Hs.
    rewrite firstn_app in Hs.
    replace (4 - length seg)%nat with 0%nat in Hs by lia.
    rewrite firstn_O, app_nil_r in Hs. rewrite Hs.
    now rewrite firstn_app, length_PutUint32. }
  rewrite Hdata in Hcat. apply app_inv_head in Hcat.
  unfold Read; cbn [c_Read arriving plain]. rewrite (conn_Read_segment _ _ _ _ E), Hdata. cbv zeta.
  rewrite fill_PutUint32, Uint32_PutUint32 by lia.
  destruct (Z.eqb_spec (Z.of_nat (length b)) 0) as [H0 | _]; [lia |].
  change (uint32 0) with (Z.of_nat (length (@nil byte))).
  apply read_loop_exact.
  - assumption.
  - unfold stream. cbn [pending log_read app]. exact Hcat.
  - cbn [length]. lia.
  - lia.
Qed.

(** A prefix of four zero bytes is rejected after the single read that
    asks for it, whatever part of it that read returns. *)
Lemma Read_zero_prefix (c : Conn) :
  length_prefix c = Some 0 ->
  fst (Read c) = Err "message length is zero"
  /\ reads (snd (Read c)) = reads c ++ [4%nat]
  /\ sent (snd (Read c)) = sent c.
Proof.
  unfold length_prefix, stream. intros H.
  destruct (pending c) as [| seg rest] eqn:E; [discriminate |].
  assert (Hz : fill (repeat Byte.x00 4) (firstn 4 seg) = repeat Byte.x00 4).
  { cbn [concat] in H.
    destruct (seg ++ concat rest) as [| b0 [| b1 [| b2 [| b3 r]]]] eqn:Es;
      try discriminate.
    assert (H0 : Uint32 [b0; b1; b2; b3] = 0) by congruence.
    apply Uint32_zero in H0. destruct H0 as (-> & -> & -> & ->).
    destruct seg as [| a0 [| a1 [| a2 [| a3 s]]]]; cbn in Es |- *;
      try reflexivity; injection Es; intros; subst; reflexivity. }
  unfold Read; cbn [c_Read arriving plain]. rewrite (conn_Read_segment _ _ _ _ E). cbv zeta. rewrite Hz.
  change (Uint32 (repeat Byte.x00 4) =? 0) with true. cbn.
  auto.
Qed.

(** ** Connections that report an error with the last bytes *)

Lemma conn_Read_at_end (c : Conn) (n : nat) : at_end (snd (conn_Read c n)) = at_end c.
Proof.
  unfold conn_Read. destruct (pending c); [| reflexivity].
  destruct (at_end c) eqn:E; cbn [snd log_read at_end]; now rewrite E.
Qed.

(** As long as no read returns bytes together with an error, a [Link]
    reads as its wire does. *)
Lemma link_Read_plain (l : Link) (n : nat) :
  no_error_with_data l ->
  link_Read l n
  = (fst (conn_Read (wire l) n),
     mkLink (snd (conn_Read (wire l) n)) (err_with_data l)).
Proof.
  unfold no_error_with_data, link_Read, closes_with. intros H.
  destruct (pending (wire l)) as [| seg [| seg' rest]]; try reflexivity.
  destruct (at_end (wire l)) as [e |]; try reflexivity.
  destruct (err_with_data l); [| reflexivity].
  specialize (H eq_refl). discriminate H.
Qed.

Lemma no_error_with_data_step (l : Link) (n : nat) :
  no_error_with_data l ->
  no_error_with_data (mkLink (snd (conn_Read (wire l) n)) (err_with_data l)).
Proof.
  unfold no_error_with_data. cbn [wire err_with_data]. intros H Hf.
  rewrite conn_Read_at_end. auto.
Qed.

Lemma read_loop_link (len : Z) (fuel : nat) :
  forall buf rcvlen l,
    no_error_with_data l ->
    read_loop fuel len buf rcvlen l
    = (fst (read_loop fuel len buf rcvlen (wire l)),
       mkLink (snd (read_loop fuel len buf rcvlen (wire l))) (err_with_data l)).
Proof.
  induction fuel as [| fuel IH]; intros buf rcvlen l H.
  - destruct l. reflexivity.
  - cbn [read_loop c_Read link plain]. rewrite (link_Read_plain l chunk H).
    pose proof (no_error_with_data_step l chunk H) as H'.
    destruct (conn_Read (wire l) chunk) as [[data [e |] |] c']; cbn [fst snd] in *;
      try reflexivity.
    destruct (_ =? len); [reflexivity |].
    now rewrite (IH _ _ _ H').
Qed.

Lemma Read_link (l : Link) :
  no_error_with_data l ->
  Read l = (fst (Read (wire l)), mkLink (snd (Read (wire l))) (err_with_data l)).
Proof.
  intros H. unfold Read. cbn [c_Read arriving link plain].
  rewrite (link_Read_plain l 4 H).
  pose proof (no_error_with_data_step l 4 H) as H'.
  destruct (conn_Read (wire l) 4) as [[data [e |] |] c']; cbn [fst snd] in *;
    try reflexivity.
  cbv zeta. destruct (_ =? 0); [reflexivity |].
  now rewrite (read_loop_link _ _ _ _ _ H').
Qed.

(** Bytes that arrive together with an error are dropped: the frame of
    the message "A", complete, is answered with the error. *)
Example Read_drops_bytes_with_error :
  fst (Read frame_with_eof) = Err "failed to receive message: EOF"
  /\ stream (wire (snd (Read frame_with_eof))) = []
  /\ fst (Read (wire frame_with_eof)) = Ok [Byte.x41].
Proof. vm_compute. repeat split. Qed.

Lemma zero_prefix_buffer (c : Conn) (seg : bytes) (rest : list bytes) :
  length_prefix c = Some 0 ->
  pending c = seg :: rest ->
  fill (repeat Byte.x00 4) (firstn 4 seg) = repeat Byte.x00 4.
Proof.
  unfold length_prefix, stream. intros H E. rewrite E in H. cbn [concat] in H.
  destruct (seg ++ concat rest) as [| b0 [| b1 [| b2 [| b3 r]]]] eqn:Es;
    try discriminate.
  assert (H0 : Uint32 [b0; b1; b2; b3] = 0) by congruence.
  apply Uint32_zero in H0. destruct H0 as (-> & -> & -> & ->).
  destruct seg as [| a0 [| a1 [| a2 [| a3 s]]]]; cbn in Es |- *;
    try reflexivity; injection Es; intros; subst; reflexivity.
Qed.

(** A zero prefix is rejected on such a connection too: one read for the
    four bytes, then an error ("message length is zero", or the error of
    the connection when it came with the prefix), and no message. *)
Lemma Read_zero_prefix_link (l : Link) :
  length_prefix (wire l) = Some 0 ->
  (fst (Read l) = Err "message length is zero"
   \/ exists e, fst (Read l) = Err ("failed to receive message: no length: " ++ e)%string)
  /\ reads (wire (snd (Read l))) = reads (wire l) ++ [4%nat].
Proof.
  intros H. unfold Read. cbn [c_Read arriving link]. unfold link_Read.
  destruct (closes_with l 4) as [[seg e] |] eqn:Ec.
  - split; [right; exists e |]; reflexivity.
  - destruct (pending (wire l)) as [| seg rest] eqn:E.
    { unfold length_prefix, stream in H. rewrite E in H. discriminate H. }
    rewrite (conn_Read_segment _ _ _ _ E). cbn [fst snd]. cbv zeta.
    rewrite (zero_prefix_buffer _ _ _ H E).
    change (Uint32 (repeat Byte.x00 4) =? 0) with true.
    split; [left |]; reflexivity.
Qed.

(** ** Round trip *)

(** C1, as amended: for every non-empty byte sequence [b] of fewer than
    2^32 bytes, [Write] succeeds on a connection that accepts writes, and
    [Read] on a connection whose stream is exactly what [Write] wrote (the
    4-byte big-endian length followed by [b]) returns [b] and leaves
    nothing of the stream unread, however the payload is cut into
    underlying reads, as long as the first of them returns the whole
    length prefix and none of them returns bytes together with an
    error. *)
Theorem framing_roundtrip (b : bytes) (w : Conn) (l : Link)
        (seg : bytes) (rest : list bytes) :
  b <> [] ->
  Z.of_nat (length b) < 2 ^ 32 ->
  write_err w = None ->
  sent w = [] ->
  pending (wire l) = seg :: rest ->
  (4 <= length seg)%nat ->
  stream (wire l) = concat (sent (snd (Write b w))) ->
  no_error_with_data l ->
  fst (Write b w) = None
  /\ fst (Read l) = Ok b
  /\ stream (wire (snd (Read l))) = [].
Proof.
  intros Hne Hlt Hw Hs Hp Hseg Hst Hl.
  unfold Write in *; cbn [c_Write plain] in *; unfold conn_Write in *.
  rewrite Hw, Hs in *.
  cbn [fst snd app sent concat] in *. split; [reflexivity |].
  rewrite uint32_small, app_nil_r in Hst by lia.
  rewrite (Read_link l Hl). cbn [fst snd wire].
  exact (Read_frame b (wire l) seg rest Hne Hlt Hp Hseg Hst).
Qed.

Lemma framing_roundtrip_witness :
  sample_1025 <> [] /\ Z.of_nat (length sample_1025) < 2 ^ 32
  /\ no_error_with_data sample_link
  /\ fst (Write sample_1025 fresh) = None
  /\ fst (Read sample_link) = Ok sample_1025
  /\ stream (wire (snd (Read sample_link))) = [].
Proof.
  assert (Hne : sample_1025 <> []) by (vm_compute; discriminate).
  assert (Hlt : Z.of_nat (length sample_1025) < 2 ^ 32) by (vm_compute; reflexivity).
  assert (Hl : no_error_with_data sample_link) by (intros _; reflexivity).
  split; [exact Hne |]. split; [exact Hlt |]. split; [exact Hl |].
  apply (framing_roundtrip sample_1025 fresh sample_link
           (PutUint32 1025 ++ sample_1025) [] Hne Hlt eq_refl eq_refl).
  - vm_compute. reflexivity.
  - vm_compute. lia.
  - vm_compute. reflexivity.
  - exact Hl.
Defined.

(** A payload that arrives in two segments is put together again. *)
Example Read_split_payload :
  fst (Read split_payload)
  = Ok [Byte.x68; Byte.x65; Byte.x6c; Byte.x6c; Byte.x6f].
Proof. vm_compute. reflexivity. Qed.

(** The sizes around the 1024-byte buffer of the loop, run. *)
Example roundtrip_1024 :
  roundtrip (repeat Byte.x41 1024) None = Ok (repeat Byte.x41 1024).
Proof. vm_compute. reflexivity. Qed.

Example roundtrip_1025 :
  roundtrip (repeat Byte.x41 1025) None = Ok (repeat Byte.x41 1025).
Proof. vm_compute. reflexivity. Qed.

Example roundtrip_3073 :
  roundtrip (repeat Byte.x41 (3 * 1024 + 1)) None
  = Ok (repeat Byte.x41 (3 * 1024 + 1)).
Proof. vm_compute. reflexivity. Qed.

Lemma four_GiB_length : Z.of_nat (length four_GiB) = 2 ^ 32.
Proof. unfold four_GiB. rewrite repeat_length. apply Z2Nat.id. lia. Qed.

(** A message whose length wraps to 0 does not come back. *)
Lemma roundtrip_wrapped (b : bytes) (tail : option string) :
  uint32 (Z.of_nat (length b)) = 0 ->
  roundtrip b tail = Err "message length is zero".
Proof.
  intros H. unfold roundtrip.
  apply Read_zero_prefix. unfold Write; cbn [c_Write plain]. rewrite H. reflexivity.
Qed.

Lemma Err_not_Ok (msg : string) (b : bytes) : Err msg <> Ok b.
Proof. discriminate. Qed.

(** C1 as stated fails: a message of exactly 2^32 bytes is not empty, its
    length wraps to 0 in the 32-bit prefix, and [Read] rejects the frame
    instead of returning the message. *)
Lemma roundtrip_fails_at_4GiB :
  ~ (four_GiB <> [] -> roundtrip four_GiB None = Ok four_GiB).
Proof.
  intros H.
  assert (Hne : four_GiB <> []).
  { intros E. pose proof four_GiB_length as L. rewrite E in L.
    cbn [length] in L. lia. }
  specialize (H Hne).
  rewrite roundtrip_wrapped in H.
  - exact (Err_not_Ok _ _ H).
  - rewrite four_GiB_length. reflexivity.
Qed.

(** ** Zero length *)



(** ** Short and long reads *)

(** C3 fails on the code.  [Read] makes one [c.Read] for the length and
    ignores how many bytes it returned: on [split_prefix], whose prefix
    announces 1 byte, it takes the length from the 2 bytes of the first
    segment and reports a zero-length message.  Each payload read asks
    for 1024 bytes whatever is left of the message: on [two_frames] the
    first frame takes 5 bytes, [Read] consumes all 10 and then fails. *)
Theorem Read_not_byte_exact :
  (length_prefix split_prefix = Some 1
   /\ fst (Read split_prefix) = Err "message length is zero"
   /\ consumed split_prefix (snd (Read split_prefix)) = 2)
  /\ (length_prefix two_frames = Some 1
      /\ fst (Read two_frames) = Err "failed to receive message: EOF"
      /\ consumed two_frames (snd (Read two_frames)) = 10).
Proof. vm_compute. repeat split; reflexivity. Qed.

End FrameFacts.
(** * Facts about the socket binding *)

Module SocketFacts.
Import Eff Socket.

Section Facts.

Context {Metadata Measurements Serializer PolicyEngineSelect : Type}.
Context {Report ar_VerificationResult Cert : Type}.

Abbreviation Externals :=
  (@Socket.Externals Metadata Measurements Serializer PolicyEngineSelect
                     Report ar_VerificationResult Cert).
Abbreviation ServerConfig :=
  (@Socket.ServerConfig Metadata Measurements Serializer PolicyEngineSelect Cert).

Variable X : Externals.

(** Unfold a handler down to its trace. *)
Ltac run :=
  cbv [handleIncoming dispatch attest verify tlssign tlscert
       api_Send api_SendError log enter emit call invoke panic ret bind defer
       trace outcome fst snd app is_ok].

(** Split on what the next collaborator or test returns. *)
Ltac branch :=
  match goal with
  | |- context [match ?x with _ => _ end] =>
      lazymatch x with
      | context [match _ with _ => _ end] => fail
      | _ => destruct x eqn:?
      end
  end.

Ltac explore := run; repeat (branch; run).

(** Split a trace that ends with an error reply and the close. *)
Ltac error_reply :=
  match goal with
  | |- exists pre format args, ?t = _ /\ _ =>
      let rec go p t :=
        lazymatch t with
        | [EvSendError _ ?f ?a; EvClose _] =>
            exists p, f, a; split; reflexivity
        | ?e :: ?t' => go (p ++ [e]) t'
        end in
      go (@nil Event) t
  end.

(** ** Handler errors *)

Lemma failed_call_in (t : Trace) :
  (exists e, In e t /\ is_failed_call e = true) <->
  existsb is_failed_call t = true.
Proof.
  rewrite existsb_exists. reflexivity.
Qed.

Lemma handleIncoming_failed_call (conn : ConnId) (conf : ServerConfig) :
  existsb is_failed_call (trace (handleIncoming X conn conf)) = true ->
  outcome (handleIncoming X conn conf) = Ret tt
  /\ exists pre format args,
       trace (handleIncoming X conn conf)
       = pre ++ [EvSendError conn format args; EvClose conn]
       /\ responses pre = [].
Proof.
  explore; cbn [existsb is_failed_call orb]; intros H; try discriminate H;
    (split; [reflexivity | error_reply]).
Qed.

(** C7, as amended: on every accepted connection, a call that fails in
    [handleIncoming] or in the handler it dispatches to (receiving,
    unmarshalling, generating, signing, marshalling) is answered by one
    [api.SendError] on that connection, the only answer of the run and its
    last effect before the deferred close.  A failure of [api.Receive] is
    answered this way too, with "Failed to receive: %v". *)
Theorem error_response_policy (conn : ConnId) (conf : ServerConfig) :
  (forall e,
      In e (trace (handleIncoming X conn conf)) ->
      is_failed_call e = true ->
      outcome (handleIncoming X conn conf) = Ret tt
      /\ exists pre format args,
           trace (handleIncoming X conn conf)
           = pre ++ [EvSendError conn format args; EvClose conn]
           /\ responses pre = [])
  /\ (forall err,
         api_Receive X conn = inl err ->
         handleIncoming X conn conf
         = ([EvCall "api.Receive" false;
             EvSendError conn "Failed to receive: %v" [ArgErr err];
             EvClose conn], Ret tt)).
Proof.
  split.
  - intros e Hin He. apply handleIncoming_failed_call.
    apply failed_call_in. now exists e.
  - intros err H. run. rewrite H. reflexivity.
Qed.

(** ** Unknown message types *)

(** C5: a request whose type is none of Attest, Verify, TLSCert and
    TLSSign is answered with [api.SendError(conn, "Invalid Type: %v",
    reqType)]; the connection is closed, [handleIncoming] returns without
    a panic, and no handler was entered. *)
Theorem unknown_tag_rejected (conn : ConnId) (conf : ServerConfig)
        (payload : bytes) (reqType : Z) :
  api_Receive X conn = inr (payload, reqType) ->
  reqType <> TypeAttest X ->
  reqType <> TypeVerify X ->
  reqType <> TypeTLSCert X ->
  reqType <> TypeTLSSign X ->
  handleIncoming X conn conf
  = ([EvCall "api.Receive" true;
      EvSendError conn "Invalid Type: %v" [ArgUint reqType];
      EvClose conn], Ret tt)
  /\ entered (trace (handleIncoming X conn conf)) = [].
Proof.
  intros Hr Ha Hv Hc Hs.
  apply Z.eqb_neq in Ha, Hv, Hc, Hs.
  run. rewrite Hr. run. rewrite Ha, Hv, Hc, Hs. split; reflexivity.
Qed.

(** ** One request per connection *)

(** C8, as amended: on every accepted connection [handleIncoming] calls
    [api.Receive] exactly once; it enters at most one handler, and none
    when [api.Receive] failed; a run that returns has attempted exactly
    one answer, [api.Send] or [api.SendError]; the close of the
    connection is the last effect of every run, and the only close. *)
Theorem one_request_per_connection (conn : ConnId) (conf : ServerConfig) :
  length (calls "api.Receive" (trace (handleIncoming X conn conf))) = 1%nat
  /\ (length (entered (trace (handleIncoming X conn conf))) <= 1)%nat
  /\ (is_ok (api_Receive X conn) = false ->
      entered (trace (handleIncoming X conn conf)) = [])
  /\ (outcome (handleIncoming X conn conf) = Ret tt ->
      length (responses (trace (handleIncoming X conn conf))) = 1%nat)
  /\ exists pre,
       trace (handleIncoming X conn conf) = pre ++ [EvClose conn]
       /\ filter is_close pre = [].
Proof.
  explore; cbn;
    (split; [reflexivity |]); (split; [lia |]);
    (split; [intros H; try reflexivity; discriminate H |]);
    (split; [intros H; try reflexivity; discriminate H |]);
    match goal with
    | |- exists pre, ?t = _ /\ _ =>
        exists (removelast t); split; reflexivity
    end.
Qed.

(** ** Attest without a signer *)

(** C6, as amended: an Attest request that unmarshals and whose report
    is generated, handled with no signer configured, is answered with
    [api.SendError] and the message "Failed to sign attestation report:
    No valid signer specified in config"; [ar.Sign] is not called, the
    handler returns without a panic, and the connection is closed by the
    deferred close only after the answer. *)
Theorem missing_signer_reported (conn : ConnId) (conf : ServerConfig)
        (payload : bytes) (req : AttestationRequest) (report : Report) :
  api_Receive X conn = inr (payload, TypeAttest X) ->
  Unmarshal_AttestationRequest X payload = inr req ->
  ar_Generate X (Nonce req) (conf_Metadata conf) (MeasurementInterfaces conf)
              (conf_Serializer conf) = inr report ->
  conf_Signer conf = None ->
  responses (trace (handleIncoming X conn conf))
  = [EvSendError conn
       "Failed to sign attestation report: No valid signer specified in config" []]
  /\ calls "ar.Sign" (trace (handleIncoming X conn conf)) = []
  /\ outcome (handleIncoming X conn conf) = Ret tt
  /\ exists pre,
       trace (handleIncoming X conn conf)
       = pre ++ [EvSendError conn
                   "Failed to sign attestation report: No valid signer specified in config" [];
                 EvClose conn].
Proof.
  intros Hr Hu Hg Hs.
  run. rewrite Hr. run. rewrite Z.eqb_refl. run. rewrite Hu. run.
  rewrite Hg. run. rewrite Hs. run. cbn.
  repeat split.
  match goal with
  | |- exists pre, ?t = _ => exists (removelast (removelast t)); reflexivity
  end.
Qed.

(** ** TLSCert and the request id *)

(** C9: two TLSCert requests that unmarshal and differ at most in their
    [Id], handled on the same connection under the same configuration,
    give the same run up to the log lines: the same calls, the same
    answer ([api.Send] with the same certificate chain, or the same
    [api.SendError]) and the same outcome. *)
Theorem tlscert_ignores_id (conn : ConnId) (conf : ServerConfig)
        (p1 p2 : bytes) (r1 r2 : TLSSignRequest) :
  Unmarshal_TLSSignRequest X p1 = inr r1 ->
  Unmarshal_TLSSignRequest X p2 = inr r2 ->
  Content r1 = Content r2 ->
  Hashtype r1 = Hashtype r2 ->
  PssOpts r1 = PssOpts r2 ->
  unlogged (trace (tlscert X conn p1 conf)) = unlogged (trace (tlscert X conn p2 conf))
  /\ responses (trace (tlscert X conn p1 conf)) = responses (trace (tlscert X conn p2 conf))
  /\ outcome (tlscert X conn p1 conf) = outcome (tlscert X conn p2 conf).
Proof.
  intros H1 H2 _ _ _. run. rewrite H1, H2. explore; repeat split.
Qed.

(** ** Verify *)

(** The socket half of C4: a verification request that unmarshals and
    whose result marshals is answered with [api.Send] of type
    [TypeVerify], whatever the result is. *)
Lemma socket_verify_answers (conn : ConnId) (conf : ServerConfig) (payload : bytes)
      (req : VerificationRequest) (r data : bytes) :
  Unmarshal_VerificationRequest X payload = inr req ->
  json_Marshal X
    (ar_Verify X (vreq_AttestationReport req) (vreq_Nonce req) (Ca req) (Policies req)
               (conf_PolicyEngineSelect conf) (conf_Serializer conf)) = inr r ->
  Marshal_VerificationResponse X {| VerificationResult := r |} = inr data ->
  responses (trace (verify X conn payload conf)) = [EvSend conn data (TypeVerify X)]
  /\ outcome (verify X conn payload conf) = Ret tt.
Proof.
  intros Hu Hj Hm. run. rewrite Hu. run. rewrite Hj. run. rewrite Hm.
  split; reflexivity.
Qed.

End Facts.

(** ** Runs *)

Ltac pick := repeat first [left; reflexivity | right].

Lemma error_response_policy_witness :
  (outcome (handleIncoming Demo.world 2%nat Demo.conf_unsigned) = Ret tt
   /\ exists pre format args,
        trace (handleIncoming Demo.world 2%nat Demo.conf_unsigned)
        = pre ++ [EvSendError 2%nat format args; EvClose 2%nat]
        /\ responses pre = [])
  /\ handleIncoming Demo.world 0%nat Demo.conf_signed
     = ([EvCall "api.Receive" false;
         EvSendError 0%nat "Failed to receive: %v" [ArgErr "EOF"];
         EvClose 0%nat], Ret tt).
Proof.
  split.
  - apply (proj1 (error_response_policy Demo.world 2%nat Demo.conf_unsigned)
                 (EvCall "ar.Generate" false)).
    + vm_compute. pick.
    + reflexivity.
  - apply (proj2 (error_response_policy Demo.world 0%nat Demo.conf_signed)).
    reflexivity.
Defined.

(** C7 as stated fails: when [api.Receive] fails, [handleIncoming] still
    answers with [api.SendError] before the connection is closed. *)
Lemma receive_error_is_answered :
  ~ (is_ok (api_Receive Demo.world 0%nat) = false ->
     responses (trace (handleIncoming Demo.world 0%nat Demo.conf_signed)) = []).
Proof.
  intros H. specialize (H eq_refl). vm_compute in H. discriminate H.
Qed.

Lemma unknown_tag_rejected_witness :
  api_Receive Demo.world 9%nat = inr ([], 255)
  /\ handleIncoming Demo.world 9%nat Demo.conf_signed
     = ([EvCall "api.Receive" true;
         EvSendError 9%nat "Invalid Type: %v" [ArgUint 255];
         EvClose 9%nat], Ret tt)
  /\ entered (trace (handleIncoming Demo.world 9%nat Demo.conf_signed)) = [].
Proof.
  split; [reflexivity |].
  apply (unknown_tag_rejected Demo.world 9%nat Demo.conf_signed [] 255);
    [reflexivity | discriminate ..].
Defined.

(** C8 as stated fails: when [api.Receive] fails no request is
    dispatched. *)
Lemma nothing_dispatched_on_receive_error :
  ~ (length (calls "api.Receive"
               (trace (handleIncoming Demo.world 0%nat Demo.conf_signed))) = 1%nat
     /\ length (entered (trace (handleIncoming Demo.world 0%nat Demo.conf_signed))) = 1%nat
     /\ length (responses (trace (handleIncoming Demo.world 0%nat Demo.conf_signed))) = 1%nat).
Proof.
  vm_compute. intros (_ & H & _). discriminate H.
Qed.

Lemma one_request_per_connection_witness :
  outcome (handleIncoming Demo.world 1%nat Demo.conf_signed) = Ret tt
  /\ length (responses (trace (handleIncoming Demo.world 1%nat Demo.conf_signed))) = 1%nat.
Proof.
  split; [reflexivity |].
  apply (one_request_per_connection Demo.world 1%nat Demo.conf_signed).
  reflexivity.
Defined.

Lemma missing_signer_reported_witness :
  responses (trace (handleIncoming Demo.world 1%nat Demo.conf_unsigned))
  = [EvSendError 1%nat
       "Failed to sign attestation report: No valid signer specified in config" []]
  /\ calls "ar.Sign" (trace (handleIncoming Demo.world 1%nat Demo.conf_unsigned)) = []
  /\ outcome (handleIncoming Demo.world 1%nat Demo.conf_unsigned) = Ret tt
  /\ exists pre,
       trace (handleIncoming Demo.world 1%nat Demo.conf_unsigned)
       = pre ++ [EvSendError 1%nat
                   "Failed to sign attestation report: No valid signer specified in config" [];
                 EvClose 1%nat].
Proof.
  apply (missing_signer_reported Demo.world 1%nat Demo.conf_unsigned
           [Byte.x01; Byte.x02] {| Nonce := [Byte.x01; Byte.x02] |}
           [Byte.x01; Byte.x02]); reflexivity.
Defined.

(** C6 as stated fails: the report is generated before the signer is
    looked at, so a well-formed Attest request whose generation fails is
    answered with the generation error, signer or not. *)
Lemma missing_signer_after_generation :
  ~ (forall payload req,
        api_Receive Demo.world 2%nat = inr (payload, TypeAttest Demo.world) ->
        Unmarshal_AttestationRequest Demo.world payload = inr req ->
        conf_Signer Demo.conf_unsigned = None ->
        responses (trace (handleIncoming Demo.world 2%nat Demo.conf_unsigned))
        = [EvSendError 2%nat
             "Failed to sign attestation report: No valid signer specified in config" []]).
Proof.
  intros H.
  specialize (H [Byte.xff] {| Nonce := [Byte.xff] |} eq_refl eq_refl eq_refl).
  vm_compute in H. discriminate H.
Qed.

Lemma tlscert_ignores_id_witness :
  unlogged (trace (tlscert Demo.world 5%nat Demo.cert_request_7 Demo.conf_signed))
  = unlogged (trace (tlscert Demo.world 5%nat Demo.cert_request_8 Demo.conf_signed))
  /\ responses (trace (tlscert Demo.world 5%nat Demo.cert_request_7 Demo.conf_signed))
     = responses (trace (tlscert Demo.world 5%nat Demo.cert_request_8 Demo.conf_signed))
  /\ outcome (tlscert Demo.world 5%nat Demo.cert_request_7 Demo.conf_signed)
     = outcome (tlscert Demo.world 5%nat Demo.cert_request_8 Demo.conf_signed).
Proof.
  apply (tlscert_ignores_id Demo.world 5%nat Demo.conf_signed
           Demo.cert_request_7 Demo.cert_request_8
           {| Id := [Byte.x07]; Content := [Byte.x2a]; Hashtype := 5; PssOpts := [] |}
           {| Id := [Byte.x08]; Content := [Byte.x2a]; Hashtype := 5; PssOpts := [] |});
    reflexivity.
Defined.

(** Without a signer, [tlscert] panics where [attest] answers: the
    connection is closed by the deferred close and nothing was sent. *)
Example tlscert_without_signer :
  outcome (handleIncoming Demo.world 5%nat Demo.conf_unsigned)
  = Panic NilDereference
  /\ responses (trace (handleIncoming Demo.world 5%nat Demo.conf_unsigned)) = []
  /\ filter is_close (trace (handleIncoming Demo.world 5%nat Demo.conf_unsigned))
     = [EvClose 5%nat].
Proof. vm_compute. repeat split. Qed.

(** The id does reach the log. *)
Example tlscert_logs_id :
  trace (tlscert Demo.world 5%nat Demo.cert_request_7 Demo.conf_signed)
  <> trace (tlscert Demo.world 5%nat Demo.cert_request_8 Demo.conf_signed).
Proof. vm_compute. discriminate. Qed.

End SocketFacts.
(** * Facts about the gRPC binding *)

Module GrpcFacts.
Import Eff Grpc.

Section Facts.

Context {Pcrs Metadata Tpm Roles Report ar_VerificationResult PublicKey : Type}.

Abbreviation Externals :=
  (@Grpc.Externals Pcrs Metadata Tpm Roles Report ar_VerificationResult PublicKey).
Abbreviation server := (@Grpc.server Pcrs Metadata Tpm Roles).

Variable X : Externals.

Ltac run :=
  cbv [Attest Verify TLSSign TLSCert log emit call invoke panic ret bind
       trace outcome fst snd app is_ok].

(** ** How failures are reported *)

Lemma Attest_no_key (s : server) (req : AttestationRequest) (err : error) :
  tpmdriver_GetTLSKey X = inl err ->
  outcome (Attest X s req)
  = Ret (Some {| ares_Status := Status_FAIL; AttestationReport := [] |}, None).
Proof. intros H. run. rewrite H. reflexivity. Qed.

Lemma Attest_not_signed (s : server) (req : AttestationRequest)
      (priv : PrivateKey) (pub : PublicKey) (data : bytes) :
  tpmdriver_GetTLSKey X = inr (priv, pub) ->
  ar_Sign X (generated X s req) priv pub (certsPem s) = (false, data) ->
  outcome (Attest X s req)
  = Ret (Some {| ares_Status := Status_FAIL; AttestationReport := data |}, None).
Proof. intros Hk Hs. run. rewrite Hk. run. rewrite Hs. reflexivity. Qed.

Lemma TLSSign_no_hash (s : server) (req : TLSSignRequest) (err : error) :
  convertHash X (Hashtype req) (PssOpts req) = inl err ->
  outcome (TLSSign X s req)
  = Ret (Some {| sres_Status := Status_FAIL; SignedContent := [] |},
         Some "Prover: Failed to find appropriate hash function").
Proof. intros H. run. rewrite H. reflexivity. Qed.

Lemma TLSSign_no_key (s : server) (req : TLSSignRequest)
      (opts : SignerOpts) (err : error) :
  convertHash X (Hashtype req) (PssOpts req) = inr opts ->
  tpmdriver_GetTLSKey X = inl err ->
  outcome (TLSSign X s req)
  = Ret (Some {| sres_Status := Status_FAIL; SignedContent := [] |},
         Some "Prover: Failed to get TLS key").
Proof. intros Hh Hk. run. rewrite Hh. run. rewrite Hk. reflexivity. Qed.

Lemma TLSSign_not_signed (s : server) (req : TLSSignRequest) (opts : SignerOpts)
      (priv : PrivateKey) (pub : PublicKey)
      (Sign : bytes -> SignerOpts -> error + bytes) (err : error) :
  convertHash X (Hashtype req) (PssOpts req) = inr opts ->
  tpmdriver_GetTLSKey X = inr (priv, pub) ->
  as_crypto_Signer priv = Some Sign ->
  Sign (Content req) opts = inl err ->
  outcome (TLSSign X s req)
  = Ret (Some {| sres_Status := Status_FAIL; SignedContent := [] |},
         Some "Prover: Failed to perform Signing operation").
Proof.
  intros Hh Hk Ha Hs. run. rewrite Hh. run. rewrite Hk. run. rewrite Ha. run.
  rewrite Hs. reflexivity.
Qed.

Lemma TLSCert_not_provisioned (s : server) (req : TLSCertRequest) :
  certs_TLSCert (certs s) = None ->
  outcome (TLSCert s req)
  = Ret (Some {| cres_Status := Status_FAIL; Certificate := [] |},
         Some "No TLS Certificate obtained").
Proof. intros H. run. rewrite H. reflexivity. Qed.

(** C10: in the gRPC binding, [Attest] reports a missing TLS key and a
    failed signature in the response only: it returns a non-nil response
    with status FAIL and a nil error.  [TLSSign] (hash not found, missing
    TLS key, failed signature) and [TLSCert] (no TLS certificate) return a
    non-nil response with status FAIL together with a non-nil error. *)
Theorem grpc_failure_reporting (s : server) :
  (forall req,
      (exists err, tpmdriver_GetTLSKey X = inl err)
      \/ (exists priv pub,
            tpmdriver_GetTLSKey X = inr (priv, pub)
            /\ fst (ar_Sign X (generated X s req) priv pub (certsPem s)) = false) ->
      exists resp,
        outcome (Attest X s req) = Ret (Some resp, None)
        /\ ares_Status resp = Status_FAIL)
  /\ (forall req,
        (exists err, convertHash X (Hashtype req) (PssOpts req) = inl err)
        \/ (exists opts err,
              convertHash X (Hashtype req) (PssOpts req) = inr opts
              /\ tpmdriver_GetTLSKey X = inl err)
        \/ (exists opts priv pub Sign err,
              convertHash X (Hashtype req) (PssOpts req) = inr opts
              /\ tpmdriver_GetTLSKey X = inr (priv, pub)
              /\ as_crypto_Signer priv = Some Sign
              /\ Sign (Content req) opts = inl err) ->
        exists resp err,
          outcome (TLSSign X s req) = Ret (Some resp, Some err)
          /\ sres_Status resp = Status_FAIL)
  /\ (forall req,
        certs_TLSCert (certs s) = None ->
        exists resp err,
          outcome (TLSCert s req) = Ret (Some resp, Some err)
          /\ cres_Status resp = Status_FAIL).
Proof.
  split; [| split].
  - intros req [[err H] | (priv & pub & Hk & Hs)].
    + eexists. split; [exact (Attest_no_key s req err H) | reflexivity].
    + destruct (ar_Sign X (generated X s req) priv pub (certsPem s))
        as [ok data] eqn:E.
      cbn [fst] in Hs. subst ok.
      eexists. split; [exact (Attest_not_signed s req priv pub data Hk E) | reflexivity].
  - intros req [[err H] | [(opts & err & Hh & Hk)
                          | (opts & priv & pub & Sign & err & Hh & Hk & Ha & Hs)]].
    + do 2 eexists. split; [exact (TLSSign_no_hash s req err H) | reflexivity].
    + do 2 eexists. split; [exact (TLSSign_no_key s req opts err Hh Hk) | reflexivity].
    + do 2 eexists.
      split; [exact (TLSSign_not_signed s req opts priv pub Sign err Hh Hk Ha Hs)
             | reflexivity].
  - intros req H.
    do 2 eexists. split; [exact (TLSCert_not_provisioned s req H) | reflexivity].
Qed.

(** ** Verify *)

(** The gRPC half of C4: when the result marshals, [Verify] returns a
    non-nil response with status OK that carries it, and a nil error. *)
Lemma grpc_Verify_answers (s : server) (req : VerificationRequest) (data : bytes) :
  json_Marshal X (ar_Verify X (vreq_AttestationReport req) (vreq_Nonce req)
                            (Ca (certs s)) (roles s)) = inr data ->
  outcome (Verify X s req)
  = Ret (Some {| vres_Status := Status_OK; VerificationResult := data |}, None).
Proof. intros H. run. rewrite H. reflexivity. Qed.

End Facts.

(** ** Runs *)

Lemma grpc_failure_reporting_witness :
  (exists resp,
      outcome (Attest Demo.world_nokey Demo.unprovisioned {| Nonce := [Byte.x01] |})
      = Ret (Some resp, None)
      /\ ares_Status resp = Status_FAIL)
  /\ (exists resp,
        outcome (Attest Demo.world_badkey Demo.unprovisioned {| Nonce := [Byte.x01] |})
        = Ret (Some resp, None)
        /\ ares_Status resp = Status_FAIL)
  /\ (exists resp err,
        outcome (TLSSign Demo.world_badkey Demo.unprovisioned
                   {| Content := [Byte.x2a]; Hashtype := 0; PssOpts := [] |})
        = Ret (Some resp, Some err)
        /\ sres_Status resp = Status_FAIL)
  /\ (exists resp err,
        outcome (TLSSign Demo.world_nokey Demo.unprovisioned
                   {| Content := [Byte.x2a]; Hashtype := 5; PssOpts := [] |})
        = Ret (Some resp, Some err)
        /\ sres_Status resp = Status_FAIL)
  /\ (exists resp err,
        outcome (TLSSign Demo.world_badkey Demo.unprovisioned
                   {| Content := [Byte.x2a]; Hashtype := 5; PssOpts := [] |})
        = Ret (Some resp, Some err)
        /\ sres_Status resp = Status_FAIL)
  /\ (exists resp err,
        outcome (TLSCert Demo.unprovisioned {| Id := [Byte.x07] |})
        = Ret (Some resp, Some err)
        /\ cres_Status resp = Status_FAIL).
Proof.
  repeat split.
  - apply (proj1 (grpc_failure_reporting Demo.world_nokey Demo.unprovisioned)).
    left. exists "no TLS key". reflexivity.
  - apply (proj1 (grpc_failure_reporting Demo.world_badkey Demo.unprovisioned)).
    right. exists Demo.badkey, tt. split; reflexivity.
  - apply (proj1 (proj2 (grpc_failure_reporting Demo.world_badkey Demo.unprovisioned))).
    left. exists "unsupported hash". reflexivity.
  - apply (proj1 (proj2 (grpc_failure_reporting Demo.world_nokey Demo.unprovisioned))).
    right. left. exists (mkOpts 5 None), "no TLS key". split; reflexivity.
  - apply (proj1 (proj2 (grpc_failure_reporting Demo.world_badkey Demo.unprovisioned))).
    right. right.
    exists (mkOpts 5 None), Demo.badkey, tt, (fun _ _ => inl "sign failed"), "sign failed".
    repeat split.
  - apply (proj2 (proj2 (grpc_failure_reporting Demo.world_nokey Demo.unprovisioned))).
    reflexivity.
Defined.

End GrpcFacts.

(** * Verification failure in both bindings *)

Module VerifyFacts.
Import Eff.

(** C4: a verification request whose body unmarshals and whose result
    marshals ([json.Marshal] of the result and, in the socket binding,
    [cbor.Marshal] of the response that carries it) gets a normal success
    answer with the serialized result: in the socket binding [api.Send]
    of type [TypeVerify] and no [api.SendError]; in the gRPC binding a
    response with status OK and a nil error.  Neither handler looks at
    the verdict inside the result: the statement holds for every result
    [ar.Verify] returns, passed or failed. *)
Theorem verification_failure_is_not_an_error
        {Metadata Measurements Serializer PolicyEngineSelect Report SResult Cert : Type}
        {Pcrs GMetadata Tpm Roles GReport GResult PublicKey : Type}
        (XS : @Socket.Externals Metadata Measurements Serializer PolicyEngineSelect
                                Report SResult Cert)
        (conf : @Socket.ServerConfig Metadata Measurements Serializer
                                     PolicyEngineSelect Cert)
        (conn : ConnId) (payload : bytes) (req : Socket.VerificationRequest)
        (r data : bytes)
        (XG : @Grpc.Externals Pcrs GMetadata Tpm Roles GReport GResult PublicKey)
        (s : @Grpc.server Pcrs GMetadata Tpm Roles)
        (greq : Grpc.VerificationRequest) (gdata : bytes) :
  Socket.Unmarshal_VerificationRequest XS payload = inr req ->
  Socket.json_Marshal XS
    (Socket.ar_Verify XS (Socket.vreq_AttestationReport req) (Socket.vreq_Nonce req)
                      (Socket.Ca req) (Socket.Policies req)
                      (Socket.conf_PolicyEngineSelect conf)
                      (Socket.conf_Serializer conf)) = inr r ->
  Socket.Marshal_VerificationResponse XS {| Socket.VerificationResult := r |}
  = inr data ->
  Grpc.json_Marshal XG
    (Grpc.ar_Verify XG (Grpc.vreq_AttestationReport greq) (Grpc.vreq_Nonce greq)
                    (Grpc.Ca (Grpc.certs s)) (Grpc.roles s)) = inr gdata ->
  (responses (trace (Socket.verify XS conn payload conf))
   = [EvSend conn data (Socket.TypeVerify XS)]
   /\ outcome (Socket.verify XS conn payload conf) = Ret tt)
  /\ outcome (Grpc.Verify XG s greq)
     = Ret (Some {| Grpc.vres_Status := Grpc.Status_OK;
                    Grpc.VerificationResult := gdata |}, None).
Proof.
  intros Hu Hj Hm Hg. split.
  - exact (SocketFacts.socket_verify_answers XS conn conf payload req r data Hu Hj Hm).
  - exact (GrpcFacts.grpc_Verify_answers XG s greq gdata Hg).
Qed.

(** A run with verdict false in both bindings: report 01, nonce 02. *)
Lemma verification_failure_is_not_an_error_witness :
  Socket.ar_Verify Demo.world [Byte.x01] [Byte.x02] [] [] tt tt = false
  /\ Grpc.ar_Verify Demo.world_nokey [Byte.x01] [Byte.x02] [Byte.x0c] tt = false
  /\ (responses (trace (Socket.verify Demo.world 4%nat Demo.stale_report Demo.conf_signed))
      = [EvSend 4%nat [Byte.x00] 2]
      /\ outcome (Socket.verify Demo.world 4%nat Demo.stale_report Demo.conf_signed)
         = Ret tt)
  /\ outcome (Grpc.Verify Demo.world_nokey Demo.unprovisioned Demo.grpc_stale_report)
     = Ret (Some {| Grpc.vres_Status := Grpc.Status_OK;
                    Grpc.VerificationResult := [Byte.x00] |}, None).
Proof.
  split; [reflexivity |]. split; [reflexivity |].
  apply (verification_failure_is_not_an_error
           Demo.world Demo.conf_signed 4%nat Demo.stale_report
           {| Socket.vreq_AttestationReport := [Byte.x01];
              Socket.vreq_Nonce := [Byte.x02];
              Socket.Ca := []; Socket.Policies := [] |}
           [Byte.x00] [Byte.x00]
           Demo.world_nokey Demo.unprovisioned Demo.grpc_stale_report [Byte.x00]);
    reflexivity.
Defined.

End VerifyFacts.
(** * More facts about the frame codec *)

Module FrameExtra.
Import Frame Session FrameFacts.

(** ** Write *)

Lemma uint32_idem_l (a b : Z) : uint32 (uint32 a + b) = uint32 (a + b).
Proof. unfold uint32. apply Z.add_mod_idemp_l. discriminate. Qed.


(** X1: [Write] makes exactly one [c.Write]; the buffer is four bytes longer
    than the message, starts with the message length modulo 2^32 in big
    endian and continues with the message, whatever the message is (empty
    or of 2^32 bytes and more included).  When [c.Write] fails, [Write]
    returns its error. *)
Theorem Write_frame_layout (msg : bytes) (w : Conn) :
  (write_err w = None ->
   fst (Write msg w) = None
   /\ sent (snd (Write msg w)) = sent w ++ [frame msg]
   /\ length (frame msg) = (4 + length msg)%nat
   /\ Uint32 (firstn 4 (frame msg)) = Z.of_nat (length msg) mod 2 ^ 32
   /\ skipn 4 (frame msg) = msg
   /\ pending (snd (Write msg w)) = pending w)
  /\ (forall e, write_err w = Some e -> Write msg w = (Some e, w)).
Proof.
  split.
  - intros Hw. unfold Write; cbn [c_Write plain]; unfold conn_Write. rewrite Hw. cbn [fst snd sent pending].
    repeat split.
    unfold frame. change (firstn 4 (PutUint32 ?v ++ msg)) with (PutUint32 v).
    apply Uint32_PutUint32, uint32_range.
  - intros e He. unfold Write; cbn [c_Write plain]; unfold conn_Write. now rewrite He.
Qed.

Lemma Write_frame_layout_witness :
  (fst (Write sample_1025 fresh) = None
   /\ sent (snd (Write sample_1025 fresh)) = sent fresh ++ [frame sample_1025]
   /\ length (frame sample_1025) = (4 + length sample_1025)%nat
   /\ Uint32 (firstn 4 (frame sample_1025)) = Z.of_nat (length sample_1025) mod 2 ^ 32
   /\ skipn 4 (frame sample_1025) = sample_1025
   /\ pending (snd (Write sample_1025 fresh)) = pending fresh)
  /\ Write sample_1025 broken_pipe = (Some "broken pipe", broken_pipe).
Proof.
  split.
  - exact (proj1 (Write_frame_layout sample_1025 fresh) eq_refl).
  - exact (proj2 (Write_frame_layout sample_1025 broken_pipe) "broken pipe" eq_refl).
Defined.

(** ** What a returned message is *)

Lemma read_loop_sound (len : Z) (fuel : nat) :
  forall buf rcvlen c b c',
    read_loop fuel len buf rcvlen c = (Ok b, c') ->
    exists got,
      b = buf ++ got
      /\ got ++ stream c' = stream c
      /\ uint32 (rcvlen + Z.of_nat (length got)) = len.
Proof.
  induction fuel as [| fuel IH]; intros buf rcvlen c b c' H; [discriminate H |].
  cbn [read_loop c_Read plain] in H. destruct (pending c) as [| seg rest] eqn:E.
  { unfold conn_Read in H. rewrite E in H. destruct (at_end c); discriminate H. }
  rewrite (conn_Read_segment _ _ _ _ E) in H. cbv zeta in H.
  pose proof (after_read_concat chunk seg rest) as Hcat.
  destruct (Z.eqb_spec (uint32 (rcvlen + Z.of_nat (length (firstn chunk seg)))) len)
    as [Heq | Hne].
  - injection H as <- <-. exists (firstn chunk seg).
    unfold stream. cbn [pending log_read]. rewrite E. auto.
  - apply IH in H. destruct H as (got & -> & Hs & Hl).
    exists (firstn chunk seg ++ got). repeat split.
    + now rewrite app_assoc.
    + unfold stream in *. cbn [pending log_read] in Hs. rewrite E.
      rewrite <- app_assoc, Hs. exact Hcat.
    + rewrite uint32_idem_l in Hl. rewrite length_app. rewrite <- Hl. f_equal. lia.
Qed.

(** X2: Whenever [Read] returns a message, the message is not empty, its
    length is, modulo 2^32, the length decoded from the first read, and
    it is made of exactly the bytes that followed on the stream: the
    stream was what the first read took, then the message, then what is
    still unread. *)
Theorem Read_returns_what_was_sent (c : Conn) (b : bytes) :
  fst (Read c) = Ok b ->
  b <> []
  /\ decoded_length c <> 0
  /\ Z.of_nat (length b) mod 2 ^ 32 = decoded_length c
  /\ stream c = prefix_read c ++ b ++ stream (snd (Read c)).
Proof.
  unfold Read, decoded_length, prefix_read; cbn [c_Read arriving plain]. intros H.
  destruct (pending c) as [| seg rest] eqn:E.
  { unfold conn_Read in H. rewrite E in H. destruct (at_end c); discriminate H. }
  rewrite (conn_Read_segment _ _ _ _ E) in *. cbv zeta in *.
  pose proof (after_read_concat 4 seg rest) as Hcat.
  set (len := Uint32 (fill (repeat Byte.x00 4) (firstn 4 seg))) in *.
  destruct (Z.eqb_spec len 0) as [H0 | H0]; [discriminate H |].
  destruct (read_loop _ len [] (uint32 0) _) as [r c'] eqn:El.
  cbn [fst snd] in *. subst r.
  apply read_loop_sound in El. destruct El as (got & -> & Hs & Hl).
  cbn [app] in *. change (uint32 0) with 0 in Hl. cbn [Z.add] in Hl.
  repeat split.
  - intros ->. cbn [length] in Hl. apply H0. rewrite <- Hl. reflexivity.
  - assumption.
  - exact Hl.
  - unfold stream in *. cbn [pending log_read] in Hs. rewrite E, Hs. now symmetry.
Qed.

Lemma Read_returns_what_was_sent_witness :
  fst (Read split_payload) = Ok [Byte.x68; Byte.x65; Byte.x6c; Byte.x6c; Byte.x6f]
  /\ decoded_length split_payload = 5
  /\ stream split_payload
     = prefix_read split_payload
       ++ [Byte.x68; Byte.x65; Byte.x6c; Byte.x6c; Byte.x6f]
       ++ stream (snd (Read split_payload)).
Proof.
  split; [reflexivity |]. split; [reflexivity |].
  apply (Read_returns_what_was_sent split_payload). reflexivity.
Defined.

(** ** Incomplete frames *)




(** ** What Read asks of the connection *)

Lemma read_loop_requests (len : Z) (fuel : nat) :
  forall buf rcvlen c,
    sent (snd (read_loop fuel len buf rcvlen c)) = sent c
    /\ exists k,
         reads (snd (read_loop fuel len buf rcvlen c)) = reads c ++ repeat chunk k.
Proof.
  induction fuel as [| fuel IH]; intros buf rcvlen c; cbn [read_loop c_Read plain].
  { split; [reflexivity | exists 0%nat; cbn; now rewrite app_nil_r]. }
  unfold conn_Read. destruct (pending c) as [| seg rest].
  { destruct (at_end c); (split; [reflexivity | exists 1%nat; reflexivity]). }
  cbv zeta. destruct (_ =? len).
  { split; [reflexivity | exists 1%nat; reflexivity]. }
  match goal with
  | |- context [read_loop fuel len ?b ?r ?c1] =>
      destruct (IH b r c1) as [Hs [k Hk]]
  end.
  split; [exact Hs |].
  exists (S k). rewrite Hk. cbn [reads log_read repeat]. now rewrite <- app_assoc.
Qed.

(** X4: Whatever arrives and whatever it returns, [Read] never writes on the
    connection, and it asks for 4 bytes once and after that only for
    1024 bytes at a time. *)
Theorem Read_requests (c : Conn) :
  sent (snd (Read c)) = sent c
  /\ exists k, reads (snd (Read c)) = reads c ++ 4%nat :: repeat chunk k.
Proof.
  unfold Read; cbn [c_Read arriving plain]; unfold conn_Read. destruct (pending c) as [| seg rest].
  { destruct (at_end c); (split; [reflexivity | exists 0%nat; reflexivity]). }
  cbv zeta. destruct (_ =? 0).
  { split; [reflexivity | exists 0%nat; reflexivity]. }
  match goal with
  | |- context [read_loop ?f ?l ?b ?r ?c1] =>
      destruct (read_loop_requests l f b r c1) as [Hs [k Hk]]
  end.
  split; [exact Hs |].
  exists k. rewrite Hk. cbn [reads log_read]. now rewrite <- app_assoc.
Qed.

(** ** Messages one after the other *)

Lemma read_loop_segment (b : bytes) (rest : list bytes)
      (Hb : Z.of_nat (length b) < 2 ^ 32) (fuel : nat) :
  forall buf seg c,
    pending c = seg :: rest ->
    seg <> [] ->
    buf ++ seg = b ->
    (length seg < fuel)%nat ->
    fst (read_loop fuel (Z.of_nat (length b)) buf (Z.of_nat (length buf)) c) = Ok b
    /\ pending (snd (read_loop fuel (Z.of_nat (length b)) buf
                               (Z.of_nat (length buf)) c)) = rest
    /\ at_end (snd (read_loop fuel (Z.of_nat (length b)) buf
                              (Z.of_nat (length buf)) c)) = at_end c.
Proof.
  induction fuel as [| fuel IH]; intros buf seg c E Hne Hcat Hfuel; [lia |].
  cbn [read_loop c_Read plain]. rewrite (conn_Read_segment _ _ _ _ E). cbv zeta.
  assert (Hlen : (length buf + length seg = length b)%nat)
    by (rewrite <- Hcat; now rewrite length_app).
  assert (Hpos : (0 < length seg)%nat)
    by (destruct seg; [contradiction | cbn; lia]).
  pose proof chunk_pos as Hc.
  rewrite uint32_small by (rewrite length_firstn; lia).
  rewrite <- Nat2Z.inj_add, <- length_app.
  unfold after_read. destruct (Nat.ltb_spec chunk (length seg)) as [Hlt | Hge].
  - destruct (Z.eqb_spec (Z.of_nat (length (buf ++ firstn chunk seg)))
                         (Z.of_nat (length b))) as [Heq | _].
    { rewrite length_app, length_firstn in Heq. lia. }
    change (at_end c)
      with (at_end (log_read c chunk (skipn chunk seg :: rest))).
    apply (IH (buf ++ firstn chunk seg) (skipn chunk seg)).
    + reflexivity.
    + intros Hn. apply (f_equal (@length byte)) in Hn.
      rewrite length_skipn in Hn. cbn in Hn. lia.
    + now rewrite <- app_assoc, firstn_skipn.
    + rewrite length_skipn. lia.
  - rewrite firstn_all2 by lia. rewrite Hcat, Z.eqb_refl.
    repeat split.
Qed.

(** A frame that arrives as one segment is read, and what arrives after
    it is left for the next [Read]. *)
Lemma Read_one_frame (b : bytes) (c : Conn) (rest : list bytes) :
  sendable b ->
  pending c = frame b :: rest ->
  fst (Read c) = Ok b
  /\ pending (snd (Read c)) = rest
  /\ at_end (snd (Read c)) = at_end c.
Proof.
  intros [Hne Hlt] E.
  assert (Hpos : (0 < length b)%nat) by (destruct b; [contradiction | cbn; lia]).
  assert (Hf : firstn 4 (frame b) = PutUint32 (Z.of_nat (length b)))
    by (unfold frame; rewrite uint32_small by lia; reflexivity).
  assert (Hs : skipn 4 (frame b) = b) by reflexivity.
  assert (Hl : length (frame b) = (4 + length b)%nat) by reflexivity.
  unfold Read; cbn [c_Read arriving plain]. rewrite (conn_Read_segment _ _ _ _ E). cbv zeta.
  rewrite Hf, fill_PutUint32, Uint32_PutUint32 by lia.
  destruct (Z.eqb_spec (Z.of_nat (length b)) 0) as [H0 | _]; [lia |].
  unfold after_read. rewrite Hl, Hs.
  destruct (Nat.ltb_spec 4 (4 + length b)) as [_ | Hge]; [| lia].
  change (uint32 0) with (Z.of_nat (length (@nil byte))).
  change (at_end c)
    with (at_end (log_read c 4 (b :: rest))).
  apply (read_loop_segment b rest Hlt _ [] b).
  - reflexivity.
  - assumption.
  - reflexivity.
  - cbn [weight fold_right pending log_read]. lia.
Qed.

Lemma Write_all_sent (msgs : list bytes) :
  forall w,
    write_err w = None ->
    sent (Write_all msgs w) = sent w ++ map frame msgs.
Proof.
  induction msgs as [| msg msgs IH]; intros w Hw; cbn [Write_all map].
  - now rewrite app_nil_r.
  - unfold Write; cbn [c_Write plain]; unfold conn_Write. rewrite Hw. cbn [snd].
    rewrite IH by reflexivity. cbn [sent]. now rewrite <- app_assoc.
Qed.

Lemma Read_n_frames (msgs : list bytes) :
  Forall sendable msgs ->
  forall c rest,
    pending c = map frame msgs ++ rest ->
    fst (Read_n (length msgs) c) = map Ok msgs
    /\ pending (snd (Read_n (length msgs) c)) = rest
    /\ at_end (snd (Read_n (length msgs) c)) = at_end c.
Proof.
  induction 1 as [| msg msgs Hm _ IH]; intros c rest E; cbn [length Read_n map].
  - auto.
  - cbn [map app] in E.
    destruct (Read_one_frame msg c (map frame msgs ++ rest) Hm E) as (Hr & Hp & He).
    destruct (Read c) as [r c1]. cbn [fst snd] in *. subst r.
    destruct (IH c1 rest Hp) as (Hr' & Hp' & He').
    destruct (Read_n (length msgs) c1) as [rs c2]. cbn [fst snd] in *.
    subst rs. repeat split; congruence.
Qed.

Lemma read_loop_at_end (len : Z) (fuel : nat) :
  forall buf rcvlen (c : Conn),
    at_end (snd (read_loop fuel len buf rcvlen c)) = at_end c.
Proof.
  induction fuel as [| fuel IH]; intros buf rcvlen c; cbn [read_loop c_Read plain].
  - reflexivity.
  - pose proof (conn_Read_at_end c chunk) as Hc.
    destruct (conn_Read c chunk) as [[data [e |] |] c']; cbn [snd] in *;
      try exact Hc.
    cbv zeta. destruct (_ =? len); [exact Hc |].
    now rewrite IH.
Qed.

Lemma Read_at_end (c : Conn) : at_end (snd (Read c)) = at_end c.
Proof.
  unfold Read; cbn [c_Read arriving plain].
  pose proof (conn_Read_at_end c 4) as Hc.
  destruct (conn_Read c 4) as [[data [e |] |] c']; cbn [snd] in *; try exact Hc.
  cbv zeta. destruct (_ =? 0); [exact Hc |].
  now rewrite read_loop_at_end.
Qed.

Lemma Read_n_link (n : nat) :
  forall l,
    no_error_with_data l ->
    Read_n n l
    = (fst (Read_n n (wire l)), mkLink (snd (Read_n n (wire l))) (err_with_data l)).
Proof.
  induction n as [| n IH]; intros l H; cbn [Read_n].
  - destruct l. reflexivity.
  - rewrite (Read_link l H).
    assert (H' : no_error_with_data (mkLink (snd (Read (wire l))) (err_with_data l))).
    { unfold no_error_with_data in *. cbn [wire err_with_data]. intros Hf.
      rewrite Read_at_end. auto. }
    destruct (Read (wire l)) as [r c1]. cbn [fst snd] in *.
    rewrite (IH _ H'). cbn [wire err_with_data fst snd].
    destruct (Read_n n c1) as [rs c2]. reflexivity.
Qed.

(** X5: Messages that the frame can carry, written one after the other on a
    connection and arriving each as written, are returned in order, one
    per call of [Read], as long as no read returns bytes together with an
    error; the calls leave nothing pending. *)
Theorem frames_read_in_order (msgs : list bytes) (w : Conn) (l : Link) :
  Forall sendable msgs ->
  write_err w = None ->
  sent w = [] ->
  pending (wire l) = sent (Write_all msgs w) ->
  no_error_with_data l ->
  fst (Read_n (length msgs) l) = map Ok msgs
  /\ pending (wire (snd (Read_n (length msgs) l))) = [].
Proof.
  intros Hm Hw Hs Hp Hl.
  rewrite (Read_n_link _ l Hl). cbn [fst snd wire].
  destruct (Read_n_frames msgs Hm (wire l) []) as (Hr & Hq & _).
  - rewrite Hp, Write_all_sent, Hs by assumption.
    cbn [app]. now rewrite app_nil_r.
  - split; assumption.
Qed.

Lemma frames_read_in_order_witness :
  Forall sendable two_messages
  /\ no_error_with_data two_messages_link
  /\ fst (Read_n 2 two_messages_link) = [Ok [Byte.x41]; Ok [Byte.x42; Byte.x43]]
  /\ pending (wire (snd (Read_n 2 two_messages_link))) = [].
Proof.
  assert (H : Forall sendable two_messages).
  { repeat constructor; (discriminate || (vm_compute; reflexivity)). }
  assert (Hl : no_error_with_data two_messages_link) by (intros _; reflexivity).
  split; [exact H |]. split; [exact Hl |].
  exact (frames_read_in_order two_messages fresh two_messages_link
           H eq_refl eq_refl eq_refl Hl).
Defined.

(** When the end of the stream is reported together with the last
    bytes, the last message is dropped. *)
Example last_message_dropped_with_error :
  fst (Read_n 2 (mkLink (deliver (Write_all two_messages fresh) (Some "EOF")) true))
  = [Ok [Byte.x41]; Err "failed to receive message: EOF"].
Proof. vm_compute. reflexivity. Qed.

End FrameExtra.
(** * More facts about the socket binding *)

Module SocketExtra.
Import Eff Socket Audit.

Section Facts.

Context {Metadata Measurements Serializer PolicyEngineSelect : Type}.
Context {Report ar_VerificationResult Cert : Type}.

Abbreviation Externals :=
  (@Socket.Externals Metadata Measurements Serializer PolicyEngineSelect
                     Report ar_VerificationResult Cert).
Abbreviation ServerConfig :=
  (@Socket.ServerConfig Metadata Measurements Serializer PolicyEngineSelect Cert).
Abbreviation Signer := (@Socket.Signer Cert).

Variable X : Externals.

Ltac run :=
  cbv [handleIncoming dispatch attest verify tlssign tlscert
       api_Send api_SendError log enter emit call invoke panic ret bind defer
       trace outcome fst snd app is_ok].

Ltac branch :=
  match goal with
  | |- context [match ?x with _ => _ end] =>
      lazymatch x with
      | context [match _ with _ => _ end] => fail
      | _ => destruct x eqn:?
      end
  end.

Ltac explore := run; repeat (branch; run).

(** ** Whom and what the answers are for *)

(** X6: Every answer and the close of a run of [handleIncoming] are made on
    the accepted connection, and a success answer carries the message
    type of the request it answers. *)
Theorem answers_match_request (conn : ConnId) (conf : ServerConfig)
        (payload : bytes) (reqType : Z) :
  api_Receive X conn = inr (payload, reqType) ->
  Forall (about conn reqType) (trace (handleIncoming X conn conf)).
Proof.
  intros Hr. run. rewrite Hr. explore;
    repeat (constructor; try exact I; try reflexivity);
    symmetry; apply Z.eqb_eq; assumption.
Qed.

(** X7: A success answer is sent only by a run in which no call failed; the
    run returns, and the success answer is its only answer. *)
Theorem success_means_no_failure (conn : ConnId) (conf : ServerConfig) :
  existsb is_send (trace (handleIncoming X conn conf)) = true ->
  existsb is_failed_call (trace (handleIncoming X conn conf)) = false
  /\ outcome (handleIncoming X conn conf) = Ret tt
  /\ length (responses (trace (handleIncoming X conn conf))) = 1%nat.
Proof.
  explore; cbn; intros H; try discriminate H; repeat split.
Qed.

(** ** Panics *)

(** X8: With a signer configured whose key has a [Sign] method, no run of
    [handleIncoming] panics: every run returns after exactly one
    answer. *)
Theorem configured_signer_never_panics (conn : ConnId) (conf : ServerConfig)
        (signer : Signer) :
  conf_Signer conf = Some signer ->
  (forall key, GetSigningKeys signer = inr key -> as_crypto_Signer key <> None) ->
  outcome (handleIncoming X conn conf) = Ret tt
  /\ length (responses (trace (handleIncoming X conn conf))) = 1%nat.
Proof.
  intros Hs Hk. explore; cbn;
    try (split; reflexivity); try discriminate Hs;
    inversion Hs; subst; exfalso; eapply Hk; eassumption.
Qed.

(** X9: A run of [handleIncoming] that panics was in [tlssign] or [tlscert];
    no call had failed, nothing was answered, and the deferred close was
    still made.  [attest] and [verify] never panic. *)
Theorem panics_only_in_tls_handlers (conn : ConnId) (conf : ServerConfig)
        (payload : bytes) :
  (forall what,
      outcome (handleIncoming X conn conf) = Panic what ->
      (entered (trace (handleIncoming X conn conf)) = [EvEnter "tlssign"]
       \/ entered (trace (handleIncoming X conn conf)) = [EvEnter "tlscert"])
      /\ existsb is_failed_call (trace (handleIncoming X conn conf)) = false
      /\ responses (trace (handleIncoming X conn conf)) = []
      /\ filter is_close (trace (handleIncoming X conn conf)) = [EvClose conn])
  /\ outcome (attest X conn payload conf) = Ret tt
  /\ outcome (verify X conn payload conf) = Ret tt.
Proof.
  split; [| split].
  - explore; cbn; intros what H; try discriminate H; auto.
  - explore; reflexivity.
  - explore; reflexivity.
Qed.

(** ** Requests that do not unmarshal *)

(** X10: When the payload of a request does not unmarshal, the handler does
    no work for it: nothing is generated, signed or verified and the
    signer is not asked for keys or certificates. *)
Theorem malformed_request_does_nothing (conn : ConnId) (conf : ServerConfig) :
  existsb is_failed_unmarshal (trace (handleIncoming X conn conf)) = true ->
  filter is_work (trace (handleIncoming X conn conf)) = []
  /\ outcome (handleIncoming X conn conf) = Ret tt.
Proof.
  explore; cbn; intros H; try discriminate H; split; reflexivity.
Qed.

(** ** What a success answer carries *)

(** X11: [attest] answers with a message of type [TypeAttest] exactly when
    the request unmarshals, a report is generated for its nonce, a signer
    is configured and signs that report, and the response marshals; the
    answer is the marshalled response with the signed report. *)
Theorem attest_answers_signed_report (conn : ConnId) (conf : ServerConfig)
        (payload data : bytes) :
  responses (trace (attest X conn payload conf)) = [EvSend conn data (TypeAttest X)]
  <->
  exists req report signer r,
    Unmarshal_AttestationRequest X payload = inr req
    /\ ar_Generate X (Nonce req) (conf_Metadata conf) (MeasurementInterfaces conf)
                   (conf_Serializer conf) = inr report
    /\ conf_Signer conf = Some signer
    /\ ar_Sign X report signer (conf_Serializer conf) = inr r
    /\ Marshal_AttestationResponse X {| AttestationReport := r |} = inr data.
Proof.
  split.
  - explore; cbn; intros H; try discriminate H.
    injection H as <-. repeat eexists; eassumption.
  - intros (req & report & signer & r & Hu & Hg & Hs & Hr & Hm).
    run. rewrite Hu. run. rewrite Hg. run. rewrite Hs. run. rewrite Hr. run.
    rewrite Hm. reflexivity.
Qed.

(** X12: [tlssign] answers with a message of type [TypeTLSSign] exactly when
    the request unmarshals, its hash options are accepted, the configured
    signer hands out a key with a [Sign] method, that method signs the
    content of the request under those options, and the response
    marshals; the answer is the marshalled response with that
    signature. *)
Theorem tlssign_answers_signature (conn : ConnId) (conf : ServerConfig)
        (payload data : bytes) :
  responses (trace (tlssign X conn payload conf)) = [EvSend conn data (TypeTLSSign X)]
  <->
  exists req opts signer key Sign signature,
    Unmarshal_TLSSignRequest X payload = inr req
    /\ api_HashToSignerOpts X (Hashtype req) (PssOpts req) = inr opts
    /\ conf_Signer conf = Some signer
    /\ GetSigningKeys signer = inr key
    /\ as_crypto_Signer key = Some Sign
    /\ Sign (Content req) opts = inr signature
    /\ Marshal_TLSSignResponse X {| SignedContent := signature |} = inr data.
Proof.
  split.
  - explore; cbn; intros H; try discriminate H.
    injection H as <-. repeat eexists; eassumption.
  - intros (req & opts & signer & key & Sign & signature
            & Hu & Ho & Hs & Hk & Ha & Hg & Hm).
    run. rewrite Hu. run. rewrite Ho. run. rewrite Hs. run. rewrite Hk. run.
    rewrite Ha. run. rewrite Hg. run. rewrite Hm. reflexivity.
Qed.

(** X13: [tlscert] answers with a message of type [TypeTLSCert] exactly when
    the request unmarshals, a signer is configured and the response
    marshals; the answer is the marshalled response with the PEM form of
    the certificate chain of that signer. *)
Theorem tlscert_answers_chain (conn : ConnId) (conf : ServerConfig)
        (payload data : bytes) :
  responses (trace (tlscert X conn payload conf)) = [EvSend conn data (TypeTLSCert X)]
  <->
  exists req signer,
    Unmarshal_TLSSignRequest X payload = inr req
    /\ conf_Signer conf = Some signer
    /\ Marshal_TLSCertResponse X
         {| Certificate := internal_WriteCertsPem X (GetCertChain signer) |}
       = inr data.
Proof.
  split.
  - explore; cbn; intros H; try discriminate H.
    injection H as <-. repeat eexists; eassumption.
  - intros (req & signer & Hu & Hs & Hm).
    run. rewrite Hu. run. rewrite Hs. run. rewrite Hm. reflexivity.
Qed.

End Facts.

(** ** Runs *)

Lemma answers_match_request_witness :
  api_Receive Demo.world 1%nat = inr ([Byte.x01; Byte.x02], 1)
  /\ Forall (about 1%nat 1) (trace (handleIncoming Demo.world 1%nat Demo.conf_signed)).
Proof.
  split; [reflexivity |].
  exact (answers_match_request Demo.world 1%nat Demo.conf_signed
           [Byte.x01; Byte.x02] 1 eq_refl).
Defined.

Lemma success_means_no_failure_witness :
  existsb is_send (trace (handleIncoming Demo.world 1%nat Demo.conf_signed)) = true
  /\ existsb is_failed_call (trace (handleIncoming Demo.world 1%nat Demo.conf_signed)) = false
  /\ outcome (handleIncoming Demo.world 1%nat Demo.conf_signed) = Ret tt
  /\ length (responses (trace (handleIncoming Demo.world 1%nat Demo.conf_signed))) = 1%nat.
Proof.
  split; [reflexivity |].
  exact (success_means_no_failure Demo.world 1%nat Demo.conf_signed eq_refl).
Defined.

Lemma configured_signer_never_panics_witness :
  outcome (handleIncoming Demo.world 7%nat Demo.conf_signed) = Ret tt
  /\ length (responses (trace (handleIncoming Demo.world 7%nat Demo.conf_signed))) = 1%nat.
Proof.
  apply (configured_signer_never_panics Demo.world 7%nat Demo.conf_signed Demo.signer).
  - reflexivity.
  - intros key H. injection H as <-. discriminate.
Defined.

Lemma panics_only_in_tls_handlers_witness :
  outcome (handleIncoming Demo.world 5%nat Demo.conf_unsigned)
  = Panic NilDereference
  /\ (entered (trace (handleIncoming Demo.world 5%nat Demo.conf_unsigned))
       = [EvEnter "tlssign"]
      \/ entered (trace (handleIncoming Demo.world 5%nat Demo.conf_unsigned))
         = [EvEnter "tlscert"])
  /\ existsb is_failed_call (trace (handleIncoming Demo.world 5%nat Demo.conf_unsigned))
     = false
  /\ responses (trace (handleIncoming Demo.world 5%nat Demo.conf_unsigned)) = []
  /\ filter is_close (trace (handleIncoming Demo.world 5%nat Demo.conf_unsigned))
     = [EvClose 5%nat].
Proof.
  split; [reflexivity |].
  exact (proj1 (panics_only_in_tls_handlers Demo.world 5%nat Demo.conf_unsigned [])
               NilDereference eq_refl).
Defined.

Lemma malformed_request_does_nothing_witness :
  existsb is_failed_unmarshal (trace (handleIncoming Demo2.world 0%nat Demo.conf_signed))
  = true
  /\ filter is_work (trace (handleIncoming Demo2.world 0%nat Demo.conf_signed)) = []
  /\ outcome (handleIncoming Demo2.world 0%nat Demo.conf_signed) = Ret tt.
Proof.
  split; [reflexivity |].
  exact (malformed_request_does_nothing Demo2.world 0%nat Demo.conf_signed eq_refl).
Defined.

Lemma attest_answers_signed_report_witness :
  responses (trace (attest Demo.world 1%nat [Byte.x01; Byte.x02] Demo.conf_signed))
  = [EvSend 1%nat [Byte.x01; Byte.x02; Byte.x53] (TypeAttest Demo.world)].
Proof.
  apply (proj2 (attest_answers_signed_report Demo.world 1%nat Demo.conf_signed
                  [Byte.x01; Byte.x02] [Byte.x01; Byte.x02; Byte.x53])).
  exists {| Nonce := [Byte.x01; Byte.x02] |}, [Byte.x01; Byte.x02], Demo.signer,
         [Byte.x01; Byte.x02; Byte.x53].
  repeat split.
Defined.

Lemma tlssign_answers_signature_witness :
  responses (trace (tlssign Demo.world 7%nat Demo.cert_request_7 Demo.conf_signed))
  = [EvSend 7%nat [Byte.x2a] (TypeTLSSign Demo.world)].
Proof.
  apply (proj2 (tlssign_answers_signature Demo.world 7%nat Demo.conf_signed
                  Demo.cert_request_7 [Byte.x2a])).
  exists {| Id := [Byte.x07]; Content := [Byte.x2a]; Hashtype := 5; PssOpts := [] |},
         (mkOpts 5 None), Demo.signer,
         {| as_crypto_Signer := Some (fun content _ => inr content) |},
         (fun content _ => inr content), [Byte.x2a].
  repeat split.
Defined.

Lemma tlscert_answers_chain_witness :
  responses (trace (tlscert Demo.world 5%nat Demo.cert_request_7 Demo.conf_signed))
  = [EvSend 5%nat [Byte.x30] (TypeTLSCert Demo.world)].
Proof.
  apply (proj2 (tlscert_answers_chain Demo.world 5%nat Demo.conf_signed
                  Demo.cert_request_7 [Byte.x30])).
  exists {| Id := [Byte.x07]; Content := [Byte.x2a]; Hashtype := 5; PssOpts := [] |},
         Demo.signer.
  repeat split.
Defined.

End SocketExtra.
(** * More facts about the gRPC binding *)

Module GrpcExtra.
Import Eff Grpc.

Section Facts.

Context {Pcrs Metadata Tpm Roles Report ar_VerificationResult PublicKey : Type}.

Abbreviation Externals :=
  (@Grpc.Externals Pcrs Metadata Tpm Roles Report ar_VerificationResult PublicKey).
Abbreviation server := (@Grpc.server Pcrs Metadata Tpm Roles).

Variable X : Externals.

Ltac run :=
  cbv [Attest Verify TLSSign TLSCert log emit call invoke panic ret bind
       trace outcome fst snd app is_ok].

(** ** Attest *)

(** X15: [Attest] always returns a response and a nil error, and never
    panics.  The status of the response is OK exactly when the TPM driver
    handed out the TLS key and [ar.Sign] reported success; whenever the
    key was handed out, the response carries what [ar.Sign] returned for
    the generated report, also when signing failed. *)
Theorem Attest_reports_in_status (s : server) (req : AttestationRequest) :
  exists resp,
    outcome (Attest X s req) = Ret (Some resp, None)
    /\ (ares_Status resp = Status_OK <->
        exists priv pub,
          tpmdriver_GetTLSKey X = inr (priv, pub)
          /\ fst (ar_Sign X (generated X s req) priv pub (certsPem s)) = true)
    /\ (forall priv pub,
           tpmdriver_GetTLSKey X = inr (priv, pub) ->
           AttestationReport resp
           = snd (ar_Sign X (generated X s req) priv pub (certsPem s))).
Proof.
  run. destruct (tpmdriver_GetTLSKey X) as [err | [priv pub]] eqn:Hk; run.
  - eexists. split; [reflexivity |]. cbn. split.
    + split; [discriminate |]. intros (p & q & H & _). discriminate H.
    + intros p q H. discriminate H.
  - destruct (ar_Sign X (generated X s req) priv pub (certsPem s)) as [ok data] eqn:Hs.
    destruct ok; run; (eexists; split; [reflexivity |]); cbn; split.
    + split; [| reflexivity]. intros _. exists priv, pub. rewrite Hs. auto.
    + intros p q H. injection H as <- <-. now rewrite Hs.
    + split; [discriminate |]. intros (p & q & H & Hf).
      injection H as <- <-. rewrite Hs in Hf. discriminate Hf.
    + intros p q H. injection H as <- <-. now rewrite Hs.
Qed.

(** ** Verify *)

(** X16: [Verify] always returns a response and a nil error, and never
    panics.  The status is OK exactly when the verification result
    marshals, and the response then carries the serialized result; when
    it does not marshal the status is FAIL and the result is empty. *)
Theorem Verify_reports_in_status (s : server) (req : VerificationRequest) :
  exists resp,
    outcome (Verify X s req) = Ret (Some resp, None)
    /\ (vres_Status resp = Status_OK <->
        json_Marshal X (ar_Verify X (vreq_AttestationReport req) (vreq_Nonce req)
                                  (Ca (certs s)) (roles s))
        = inr (VerificationResult resp))
    /\ (vres_Status resp = Status_FAIL -> VerificationResult resp = []).
Proof.
  run.
  destruct (json_Marshal X _) as [err | data] eqn:Hj; run;
    (eexists; split; [reflexivity |]); cbn; split;
    try (split; [discriminate | intros H; discriminate H]);
    try (split; reflexivity);
    try reflexivity.
  intros H. discriminate H.
Qed.

(** ** TLSSign *)

(** X17: Whenever [TLSSign] returns, it returns a response, and the error is
    nil exactly when the status of the response is OK.  With status FAIL
    the response carries no signature; with status OK it carries what the
    [Sign] method of the TLS key returned for the content of the request
    under the options [convertHash] chose.  [TLSSign] panics only when
    the TLS key has no [Sign] method. *)
Theorem TLSSign_status_and_error (s : server) (req : TLSSignRequest) :
  (forall r e,
      outcome (TLSSign X s req) = Ret (r, e) ->
      exists resp,
        r = Some resp
        /\ (e = None <-> sres_Status resp = Status_OK)
        /\ (sres_Status resp = Status_FAIL -> SignedContent resp = [])
        /\ (sres_Status resp = Status_OK ->
            exists opts priv pub Sign,
              convertHash X (Hashtype req) (PssOpts req) = inr opts
              /\ tpmdriver_GetTLSKey X = inr (priv, pub)
              /\ as_crypto_Signer priv = Some Sign
              /\ Sign (Content req) opts = inr (SignedContent resp)))
  /\ (forall what,
         outcome (TLSSign X s req) = Panic what ->
         exists opts priv pub,
           convertHash X (Hashtype req) (PssOpts req) = inr opts
           /\ tpmdriver_GetTLSKey X = inr (priv, pub)
           /\ as_crypto_Signer priv = None).
Proof.
  run.
  destruct (convertHash X (Hashtype req) (PssOpts req)) as [e1 | opts] eqn:Hh; run.
  { split; [| intros what H; discriminate H].
    intros r e H. injection H as <- <-. eexists. split; [reflexivity |]. cbn.
    repeat split; try discriminate; intros H; discriminate H. }
  destruct (tpmdriver_GetTLSKey X) as [e2 | [priv pub]] eqn:Hk; run.
  { split; [| intros what H; discriminate H].
    intros r e H. injection H as <- <-. eexists. split; [reflexivity |]. cbn.
    repeat split; try discriminate; intros H; discriminate H. }
  destruct (as_crypto_Signer priv) as [Sign |] eqn:Ha; run.
  2: { split; [intros r e H; discriminate H |].
       intros what _. exists opts, priv, pub. auto. }
  destruct (Sign (Content req) opts) as [e3 | signature] eqn:Hg; run.
  { split; [| intros what H; discriminate H].
    intros r e H. injection H as <- <-. eexists. split; [reflexivity |]. cbn.
    repeat split; try discriminate; intros H; discriminate H. }
  split; [| intros what H; discriminate H].
  intros r e H. injection H as <- <-. eexists. split; [reflexivity |]. cbn.
  repeat split; try discriminate.
  intros _. exists opts, priv, pub, Sign. auto.
Qed.

End Facts.

(** ** Runs *)

Lemma TLSSign_status_and_error_witness :
  outcome (TLSSign Demo2.world_goodkey Demo.unprovisioned
             {| Content := [Byte.x2a]; Hashtype := 5; PssOpts := [] |})
  = Ret (Some {| sres_Status := Status_OK; SignedContent := [Byte.x2a] |}, None)
  /\ exists resp,
       Some {| sres_Status := Status_OK; SignedContent := [Byte.x2a] |} = Some resp
       /\ (@None error = None <-> sres_Status resp = Status_OK)
       /\ (sres_Status resp = Status_FAIL -> SignedContent resp = [])
       /\ (sres_Status resp = Status_OK ->
           exists opts priv pub Sign,
             convertHash Demo2.world_goodkey 5 [] = inr opts
             /\ tpmdriver_GetTLSKey Demo2.world_goodkey = inr (priv, pub)
             /\ as_crypto_Signer priv = Some Sign
             /\ Sign [Byte.x2a] opts = inr (SignedContent resp)).
Proof.
  split; [reflexivity |].
  exact (proj1 (TLSSign_status_and_error Demo2.world_goodkey Demo.unprovisioned
                  {| Content := [Byte.x2a]; Hashtype := 5; PssOpts := [] |})
               _ _ eq_refl).
Defined.

End GrpcExtra.
